(** * EchoVerse (app.py): the narration pipeline and its session history

    A shallow embedding of [src/app.py]: the two service adapters
    ([rewrite_text_with_tone], [convert_text_to_speech]), the handler of the
    "Generate Audiobook" button, and the part of the page that offers the
    latest narration for download.

    Python values are modelled as follows.
    - [str] is a list of Unicode code points ([list N]); string literals of
      the source are written [str "..."].
    - [bytes] is a list of [Byte.byte].
    - the dict literal stored in the history is a record with its five keys;
      the dicts returned by the text model and the [tld_map] table are
      finite maps ([gmap]) keyed by [str].
    - an exception is a value of [exn]; every one of them is an instance of
      Python's [Exception], so [except Exception] handles it.
    - the two external services (the Hugging Face pipeline and gTTS) and the
      Unicode case tables are fields of a record [Services]; they act on an
      external world of their own.
    - effects (the Streamlit calls, the service calls, the session's history)
      are threaded through a state-and-exception monad [M]. *)

From Stdlib Require Import NArith ZArith List String Ascii Lia.
From Stdlib Require Import DecimalNat.
From stdpp Require Import base gmap list strings.
Import ListNotations.

(** ** Python strings and bytes *)

Abbreviation pystr := (list N).
Abbreviation pybytes := (list Byte.byte).

(** A source literal (ASCII) as a list of code points. *)
Definition str (s : string) : pystr :=
  List.map N_of_ascii (list_ascii_of_string s).
Arguments str s%_string.

(** [str.isspace] on one code point: CPython's [_PyUnicode_IsWhitespace]. *)
Definition isspace (c : N) : bool :=
  ((9 <=? c) && (c <=? 13)
   || (28 <=? c) && (c <=? 32)
   || (c =? 133) || (c =? 160) || (c =? 5760)
   || (8192 <=? c) && (c <=? 8202)
   || (c =? 8232) || (c =? 8233) || (c =? 8239) || (c =? 8287)
   || (c =? 12288))%N.

Fixpoint lstrip (s : pystr) : pystr :=
  match s with
  | c :: s' => if isspace c then lstrip s' else s
  | [] => []
  end.

Definition rstrip (s : pystr) : pystr := rev (lstrip (rev s)).

(** [s.strip()] with no argument. *)
Definition strip (s : pystr) : pystr := rstrip (lstrip s).

Definition isascii (s : pystr) : bool := forallb (fun c => (c <? 128)%N) s.

Definition ascii_lower (c : N) : N :=
  if ((65 <=? c) && (c <=? 90))%N then (c + 32)%N else c.

(** [s.lower()]: on an ASCII string, letter by letter; otherwise by the
    Unicode case tables, which are a parameter. *)
Definition lower (unicode_lower : pystr -> pystr) (s : pystr) : pystr :=
  if isascii s then List.map ascii_lower s else unicode_lower s.

(** Truth value of a [str] or [bytes] object: non-empty. *)
Definition truthy {A} (s : list A) : bool :=
  match s with [] => false | _ :: _ => true end.

(** Truth value of a value that is [None] or a sequence. *)
Definition truthy_opt {A} (o : option (list A)) : bool :=
  match o with Some s => truthy s | None => false end.

(** [needle in hay] for strings. *)
Fixpoint startswith (p s : pystr) : bool :=
  match p, s with
  | [], _ => true
  | a :: p', b :: s' => (a =? b)%N && startswith p' s'
  | _ :: _, [] => false
  end.

Fixpoint contains (needle hay : pystr) : bool :=
  startswith needle hay ||
  match hay with
  | [] => false
  | _ :: hay' => contains needle hay'
  end.

(** ** Exceptions *)

(** The instances of Python's [Exception] the program meets. What is not an
    [Exception] ([KeyboardInterrupt], [SystemExit]) is outside the model:
    [except Exception] would let it pass. *)
Inductive exn : Type :=
| KeyError (key : pystr)
| IndexError
| ServiceError (cls msg : pystr).

Inductive Res (A : Type) : Type :=
| Ret (a : A)
| Raise (e : exn).
Arguments Ret {A} a.
Arguments Raise {A} e.

(** ** [io.BytesIO] *)

Module BytesIO.
Record t := mk { buf : pybytes; pos : nat }.

Definition new : t := mk [] 0.

(** [fp.write(b)]: overwrite from the position on, zero-filling a gap. *)
Definition write (b : pybytes) (fp : t) : t :=
  let pad := repeat Byte.x00 (pos fp - length (buf fp)) in
  mk (take (pos fp) (buf fp) ++ pad ++ b ++ drop (pos fp + length b) (buf fp))
     (pos fp + length b).

Definition seek (n : nat) (fp : t) : t := mk (buf fp) n.

(** [fp.read()]: everything from the position to the end. *)
Definition read (fp : t) : pybytes * t :=
  (drop (pos fp) (buf fp), mk (buf fp) (Nat.max (pos fp) (length (buf fp)))).
End BytesIO.

(** ** The environment of the program *)

Record Services : Type := {
  (** what the services may read and change outside the program *)
  World : Type;
  (** the object [pipeline(...)] returns *)
  Pipeline : Type;
  (** a [gTTS] object *)
  Tts : Type;
  (** [str.lower] on a string that is not ASCII *)
  unicode_lower : pystr -> pystr;
  (** [pipeline("text2text-generation", model="google/flan-t5-base")],
      behind [st.cache_resource] *)
  hf_pipeline : World -> Res Pipeline * World;
  (** [rewriter(prompt, max_length=, num_beams=, early_stopping=)] *)
  hf_generate : Pipeline -> pystr -> Z -> Z -> bool ->
                World -> Res (list (gmap pystr pystr)) * World;
  (** [gTTS(text=, lang=, tld=, slow=)] *)
  gtts_new : pystr -> pystr -> pystr -> bool -> World -> Res Tts * World;
  (** [tts.write_to_fp(fp)]: the chunks it writes to [fp], in order *)
  gtts_stream : Tts -> World -> Res (list pybytes) * World
}.

(** ** The session's data *)

(** The dict the handler inserts in [st.session_state.history]. *)
Record NarrationRecord : Type := {
  original : pystr;
  rewritten : pystr;
  tone : pystr;
  accent : pystr;
  audio : pybytes
}.

(** What a run does, in order: the Streamlit calls ([St...]), the calls of
    the two services ([Hf...], [Gtts...]) with their arguments, and the
    entries into the two adapters ([EnterRewrite], [EnterSynth]) with
    theirs. *)
Inductive Event : Type :=
| StWarning (body : pystr)
| StError (body : pystr) (e : exn)
| StSuccess (body : pystr)
| StSpinner (text : pystr)
| EnterRewrite (text tone : pystr)
| EnterSynth (text accent : pystr)
| HfPipeline
| HfGenerate (prompt : pystr) (max_length num_beams : Z) (early_stopping : bool)
| GttsNew (text lang tld : pystr) (slow : bool)
| GttsWrite.

(** ** The monad of the program: state and exceptions *)

Section Program.

Variable svc : Services.

(** The program's state: [st.session_state.history], the events so far
    (oldest first) and the world of the services. *)
Record State : Type := {
  history : list NarrationRecord;
  trace : list Event;
  world : World svc
}.

Definition M (A : Type) : Type := State -> Res A * State.

Definition ret {A} (a : A) : M A := fun s => (Ret a, s).

Definition raise {A} (e : exn) : M A := fun s => (Raise e, s).

Definition bind {A B} (m : M A) (k : A -> M B) : M B :=
  fun s =>
    match m s with
    | (Ret a, s') => k a s'
    | (Raise e, s') => (Raise e, s')
    end.

(** [try: body / except Exception as e: handler e] *)
Definition try_except {A} (body : M A) (handler : exn -> M A) : M A :=
  fun s =>
    match body s with
    | (Ret a, s') => (Ret a, s')
    | (Raise e, s') => handler e s'
    end.

Definition emit (ev : Event) : M unit :=
  fun s => (Ret tt, {| history := history s;
                       trace := trace s ++ [ev];
                       world := world s |}).

(** A call of one of the services: the event is recorded, then the service
    acts on the world. *)
Definition call {A} (ev : Event) (f : World svc -> Res A * World svc) : M A :=
  fun s =>
    let (r, w) := f (world s) in
    (r, {| history := history s; trace := trace s ++ [ev]; world := w |}).

(** [st.session_state.history.insert(0, r)] *)
Definition history_insert (i : nat) (r : NarrationRecord) : M unit :=
  fun s => (Ret tt, {| history := take i (history s) ++ r :: drop i (history s);
                       trace := trace s;
                       world := world s |}).

End Program.

Arguments ret {svc A} a.
Arguments raise {svc A} e.
Arguments bind {svc A B} m k.
Arguments try_except {svc A} body handler.
Arguments emit {svc} ev.
Arguments call {svc A} ev f.
Arguments history_insert {svc} i r.
Arguments history {svc} s.
Arguments trace {svc} s.
Arguments world {svc} s.

Notation "x <- c1 ;; c2" := (bind c1 (fun x => c2))
  (at level 100, c1 at next level, right associativity).
Notation "c1 ;; c2" := (bind c1 (fun _ => c2))
  (at level 100, right associativity).

(** [l[i]] on a Python list, for [i >= 0]. *)
Definition getitem {svc : Services} {A : Type} (l : list A) (i : nat) : M svc A :=
  match l !! i with
  | Some x => ret x
  | None => raise IndexError
  end.

(** [d[k]] on a Python dict with string keys. *)
Definition dict_getitem {svc : Services} {A : Type} (d : gmap pystr A) (k : pystr) : M svc A :=
  match d !! k with
  | Some x => ret x
  | None => raise (KeyError k)
  end.

(** ** The adapters *)

Section Adapters.

Variable svc : Services.

Definition load_rewriting_model : M svc (Pipeline svc) :=
  call HfPipeline (hf_pipeline svc).

Definition rewrite_prompt (text tone : pystr) : pystr :=
  str "Rewrite the following text in a " ++ lower (unicode_lower svc) tone
    ++ str " tone: " ++ text.

(** The event [EnterRewrite] marks the entry; the [try] block follows. *)
Definition rewrite_text_with_tone (text tone : pystr) : M svc (option pystr) :=
  emit (EnterRewrite text tone) ;;
  try_except
    (let prompt := rewrite_prompt text tone in
     rewriter <- load_rewriting_model ;;
     result <- call (HfGenerate prompt 300 4 true)
                    (hf_generate svc rewriter prompt 300 4 true) ;;
     first <- getitem result 0 ;;
     generated_text <- dict_getitem first (str "generated_text") ;;
     ret (Some (strip generated_text)))
    (fun e =>
       emit (StError (str "Error during tone rewriting: ") e) ;;
       ret None).

Definition tld_map : gmap pystr pystr :=
  <[str "US English" := str "com"]>
    (<[str "UK English" := str "co.uk"]>
       (<[str "Australian English" := str "com.au"]> ∅)).

(** The event [EnterSynth] marks the entry; the [try] block follows. The
    argument [tld_map[accent]] is evaluated before [gTTS] is called. *)
Definition convert_text_to_speech (text accent : pystr) : M svc (option pybytes) :=
  emit (EnterSynth text accent) ;;
  try_except
    (tld <- dict_getitem tld_map accent ;;
     tts <- call (GttsNew text (str "en") tld false)
                 (gtts_new svc text (str "en") tld false) ;;
     let audio_fp := BytesIO.new in
     chunks <- call GttsWrite (gtts_stream svc tts) ;;
     let audio_fp := fold_left (fun fp b => BytesIO.write b fp) chunks audio_fp in
     let audio_fp := BytesIO.seek 0 audio_fp in
     ret (Some (fst (BytesIO.read audio_fp))))
    (fun e =>
       emit (StError (str "Error during audio generation: ") e) ;;
       ret None).

(** ** The "Generate Audiobook" button *)

(** The body of [if st.button("Generate Audiobook", ...)]. The tests
    [if rewritten_text:] and [if audio_data:] hold for a value that is
    neither [None] nor empty: the patterns [Some (_ :: _)]. *)
Definition generate_audiobook (text_input selected_tone selected_accent : pystr)
  : M svc unit :=
  if negb (truthy (strip text_input)) then
    emit (StWarning (str "Please provide some text to generate the audiobook."))
  else
    emit (StSpinner (str "Rewriting text... (This may take a moment on first run)")) ;;
    rewritten_text <- rewrite_text_with_tone text_input selected_tone ;;
    match rewritten_text with
    | Some ((_ :: _) as rewritten_text) =>
        emit (StSpinner (str "Synthesizing audio...")) ;;
        audio_data <- convert_text_to_speech rewritten_text selected_accent ;;
        match audio_data with
        | Some ((_ :: _) as audio_data) =>
            emit (StSuccess (str "Audiobook generated successfully!")) ;;
            history_insert 0 {| original := text_input;
                                rewritten := rewritten_text;
                                tone := selected_tone;
                                accent := selected_accent;
                                audio := audio_data |}
        | _ => ret tt
        end
    | _ => ret tt
    end.

End Adapters.

(** ** The latest narration on the page *)

Record DownloadButton : Type := {
  label : pystr;
  data : pybytes;
  file_name : pystr;
  mime : pystr
}.

(** The f-string of [file_name=]. *)
Definition download_file_name (latest : NarrationRecord) : pystr :=
  str "EchoVerse_" ++ tone latest ++ str "_" ++ accent latest ++ str ".mp3".

(** [if st.session_state.history: latest = st.session_state.history[0] ...]:
    the download button of the page, if there is one. *)
Definition latest_download (h : list NarrationRecord) : option DownloadButton :=
  if truthy h then
    match h !! 0 with
    | Some latest =>
        Some {| label := str "Download MP3";
                data := audio latest;
                file_name := download_file_name latest;
                mime := str "audio/mp3" |}
    | None => None
    end
  else None.

(** ** Runs of the handler *)

(** The state of a session that starts: [st.session_state.history = []]. *)
Definition new_session {svc : Services} (w : World svc) : State svc :=
  {| history := []; trace := []; world := w |}.

(** One press of the button: the inputs of the form at that moment. *)
Record Press : Type := {
  press_text : pystr;
  press_tone : pystr;
  press_accent : pystr
}.

Definition run_press {svc : Services} (p : Press) (s : State svc) : State svc :=
  snd (generate_audiobook svc (press_text p) (press_tone p) (press_accent p) s).

(** The presses of a session, one after the other. *)
Definition run_presses {svc : Services} (ps : list Press) (s : State svc) : State svc :=
  fold_left (fun s p => run_press p s) ps s.

(** The options of the two select boxes. *)
Definition tone_options : list pystr :=
  [str "Neutral"; str "Suspenseful"; str "Inspiring"].

Definition accent_options : list pystr :=
  [str "US English"; str "UK English"; str "Australian English"].

(** ** Services for the examples *)

(** A text model that answers [gen] and a speech service that streams [aud];
    the world counts the calls. *)
Definition mock (gen : Res (list (gmap pystr pystr))) (aud : Res (list pybytes))
  : Services :=
  {| World := nat;
     Pipeline := unit;
     Tts := unit;
     unicode_lower := fun s => s;
     hf_pipeline := fun w => (Ret tt, S w);
     hf_generate := fun _ _ _ _ _ w => (gen, S w);
     gtts_new := fun _ _ _ _ w => (Ret tt, S w);
     gtts_stream := fun _ w => (aud, S w) |}.

Definition generated (text : pystr) : Res (list (gmap pystr pystr)) :=
  Ret [ {[ str "generated_text" := text ]} ].

Definition mp3_chunks : list pybytes :=
  [ [Byte.xff; Byte.xfb]; [Byte.x90; Byte.x64] ].

Definition good : Services :=
  mock (generated (str "  A calm morning. ")) (Ret mp3_chunks).

(** The text model fails. *)
Definition rewrite_down : Services :=
  mock (Raise (ServiceError (str "RuntimeError") (str "out of memory")))
       (Ret mp3_chunks).

(** The speech service fails. *)
Definition speech_down : Services :=
  mock (generated (str "  A calm morning. "))
       (Raise (ServiceError (str "gTTSError") (str "Failed to connect"))).

(** The text model answers white space only. *)
Definition blank_answer : Services :=
  mock (generated (str "   ")) (Ret mp3_chunks).

Definition hello : Press :=
  {| press_text := str "Hello world";
     press_tone := str "Neutral";
     press_accent := str "US English" |}.

Definition again : Press :=
  {| press_text := str " Second take ";
     press_tone := str "Suspenseful";
     press_accent := str "UK English" |}.

Definition mp3 : pybytes := [Byte.xff; Byte.xfb; Byte.x90; Byte.x64].

(** ** Vocabulary of the statements *)

Section Vocabulary.

Variable svc : Services.

(** A computation run on its own in world [w]: its result, the events it
    adds and the world it leaves. *)
Definition isolated {A} (m : M svc A) (w : World svc)
  : Res A * list Event * World svc :=
  let (r, s') := m (new_session w) in (r, trace s', world s').

(** [m] neither reads nor changes the history and the earlier events: all it
    does is decided by the world. *)
Definition local {A} (m : M svc A) : Prop :=
  forall s,
    m s = let '(r, evs, w') := isolated m (world s) in
          (r, {| history := history s; trace := trace s ++ evs; world := w' |}).

(** Called in world [w], the adapter [m] returns [r] and leaves world [w']. *)
Definition adapter_returns {A} (m : M svc A) (w : World svc) (r : A) (w' : World svc)
  : Prop :=
  exists s s', world s = w /\ m s = (Ret r, s') /\ world s' = w'.

(** The events of an invocation of the synthesis adapter. *)
Definition is_synth_event (ev : Event) : bool :=
  match ev with
  | EnterSynth _ _ | GttsNew _ _ _ _ | GttsWrite => true
  | _ => false
  end.

(** The record of a press that succeeds: the outputs of the two adapters,
    called one after the other as the handler does, when both are usable. *)
Definition run_record (p : Press) (s : State svc) : option NarrationRecord :=
  if truthy (strip (press_text p)) then
    match rewrite_text_with_tone svc (press_text p) (press_tone p) s with
    | (Ret (Some ((_ :: _) as rw)), s1) =>
        match convert_text_to_speech svc rw (press_accent p) s1 with
        | (Ret (Some ((_ :: _) as au)), _) =>
            Some {| original := press_text p;
                    rewritten := rw;
                    tone := press_tone p;
                    accent := press_accent p;
                    audio := au |}
        | _ => None
        end
    | _ => None
    end
  else None.

(** The records of the presses of a session, in the order of the presses. *)
Fixpoint run_records (ps : list Press) (s : State svc) : list (option NarrationRecord) :=
  match ps with
  | [] => []
  | p :: ps' => run_record p s :: run_records ps' (run_press p s)
  end.

End Vocabulary.

Arguments isolated {svc A} m w.
Arguments local {svc A} m.
Arguments adapter_returns {svc A} m w r w'.
Arguments run_record {svc} p s.
Arguments run_records {svc} ps s.

(** ** Library functions the rest of the page uses *)

(** *** [base64.b64encode] *)

Definition b64_alphabet : pybytes :=
  list_byte_of_string
    "ABCDEFGHIJKLMNOPQRSTUVWXYZabcdefghijklmnopqrstuvwxyz0123456789+/".

(** The digit of a 6-bit value. *)
Definition b64_digit (n : N) : Byte.byte :=
  nth (N.to_nat n) b64_alphabet Byte.x3d.

(** Three bytes give four digits; a last group of one or two bytes is
    padded with "=". *)
Fixpoint b64encode (bs : pybytes) : pybytes :=
  match bs with
  | [] => []
  | [a] =>
      let a := Byte.to_N a in
      [b64_digit (a / 4); b64_digit (a mod 4 * 16); Byte.x3d; Byte.x3d]
  | [a; b] =>
      let a := Byte.to_N a in
      let b := Byte.to_N b in
      [b64_digit (a / 4); b64_digit (a mod 4 * 16 + b / 16);
       b64_digit (b mod 16 * 4); Byte.x3d]
  | a :: b :: c :: rest =>
      let a := Byte.to_N a in
      let b := Byte.to_N b in
      let c := Byte.to_N c in
      b64_digit (a / 4) :: b64_digit (a mod 4 * 16 + b / 16)
        :: b64_digit (b mod 16 * 4 + c / 64) :: b64_digit (c mod 64)
        :: b64encode rest
  end%N.

(** *** [bytes.decode("utf-8")] *)

(** The [UnicodeDecodeError] of a strict decoding (its message is not
    reproduced). *)
Definition UnicodeDecodeError : exn :=
  ServiceError (str "UnicodeDecodeError") (str "'utf-8' codec can't decode").

Definition is_continuation (b : N) : bool := ((128 <=? b) && (b <=? 191))%N.

(** The second byte of a three-byte sequence: no overlong form, no surrogate. *)
Definition second_of_three (b0 b1 : N) : bool :=
  (if b0 =? 224 then (160 <=? b1) && (b1 <=? 191)
   else if b0 =? 237 then (128 <=? b1) && (b1 <=? 159)
   else is_continuation b1)%N.

(** The second byte of a four-byte sequence: no overlong form, at most
    U+10FFFF. *)
Definition second_of_four (b0 b1 : N) : bool :=
  (if b0 =? 240 then (144 <=? b1) && (b1 <=? 191)
   else if b0 =? 244 then (128 <=? b1) && (b1 <=? 143)
   else is_continuation b1)%N.

Definition res_cons (c : N) (r : Res pystr) : Res pystr :=
  match r with
  | Ret s => Ret (c :: s)
  | Raise e => Raise e
  end.

Fixpoint utf8_decode_values (bs : list N) : Res pystr :=
  match bs with
  | [] => Ret []
  | b0 :: r1 =>
      if (b0 <? 128)%N then res_cons b0 (utf8_decode_values r1)
      else if ((194 <=? b0) && (b0 <=? 223))%N then
        match r1 with
        | b1 :: r2 =>
            if is_continuation b1
            then res_cons ((b0 - 192) * 64 + (b1 - 128))%N (utf8_decode_values r2)
            else Raise UnicodeDecodeError
        | _ => Raise UnicodeDecodeError
        end
      else if ((224 <=? b0) && (b0 <=? 239))%N then
        match r1 with
        | b1 :: b2 :: r3 =>
            if second_of_three b0 b1 && is_continuation b2
            then res_cons ((b0 - 224) * 4096 + (b1 - 128) * 64 + (b2 - 128))%N
                          (utf8_decode_values r3)
            else Raise UnicodeDecodeError
        | _ => Raise UnicodeDecodeError
        end
      else if ((240 <=? b0) && (b0 <=? 244))%N then
        match r1 with
        | b1 :: b2 :: b3 :: r4 =>
            if second_of_four b0 b1 && is_continuation b2 && is_continuation b3
            then res_cons ((b0 - 240) * 262144 + (b1 - 128) * 4096
                           + (b2 - 128) * 64 + (b3 - 128))%N
                          (utf8_decode_values r4)
            else Raise UnicodeDecodeError
        | _ => Raise UnicodeDecodeError
        end
      else Raise UnicodeDecodeError
  end.

(** [b.decode("utf-8")], and [b.decode()]: strict. *)
Definition utf8_decode (bs : pybytes) : Res pystr :=
  utf8_decode_values (List.map Byte.to_N bs).

(** A Unicode scalar value: what a [str] decoded from UTF-8 holds. *)
Definition is_scalar (c : N) : bool :=
  ((c <? 55296) || (57344 <=? c) && (c <? 1114112))%N.

(** *** [str] of a non-negative [int] *)

Fixpoint uint_digits (d : Decimal.uint) : pystr :=
  match d with
  | Decimal.Nil => []
  | Decimal.D0 d => 48%N :: uint_digits d
  | Decimal.D1 d => 49%N :: uint_digits d
  | Decimal.D2 d => 50%N :: uint_digits d
  | Decimal.D3 d => 51%N :: uint_digits d
  | Decimal.D4 d => 52%N :: uint_digits d
  | Decimal.D5 d => 53%N :: uint_digits d
  | Decimal.D6 d => 54%N :: uint_digits d
  | Decimal.D7 d => 55%N :: uint_digits d
  | Decimal.D8 d => 56%N :: uint_digits d
  | Decimal.D9 d => 57%N :: uint_digits d
  end.

Definition str_of_nat (n : nat) : pystr := uint_digits (Nat.to_uint n).

(** ** The page *)

(** The choices of the form. A select box returns the option chosen, a radio
    group likewise. *)
Inductive Tone : Type := Neutral | Suspenseful | Inspiring.

Inductive Accent : Type := USEnglish | UKEnglish | AustralianEnglish.

Inductive InputMethod : Type := PasteText | UploadFile.

Definition tone_label (t : Tone) : pystr :=
  match t with
  | Neutral => str "Neutral"
  | Suspenseful => str "Suspenseful"
  | Inspiring => str "Inspiring"
  end.

Definition accent_label (a : Accent) : pystr :=
  match a with
  | USEnglish => str "US English"
  | UKEnglish => str "UK English"
  | AustralianEnglish => str "Australian English"
  end.

Definition method_label (m : InputMethod) : pystr :=
  match m with
  | PasteText => str "Paste Text"
  | UploadFile => str "Upload .txt File"
  end.

(** What the user has set in the widgets when the script runs. *)
Record Widgets : Type := {
  (** [st.radio("Choose input method", ...)] *)
  input_method : InputMethod;
  (** the content of [st.text_area("Paste your text here:")] *)
  pasted_text : pystr;
  (** [st.file_uploader(...)]: [None], or the bytes of the file *)
  uploaded_file : option pybytes;
  (** the two select boxes *)
  selected_tone : Tone;
  selected_accent : Accent;
  (** [st.button("Generate Audiobook")] *)
  generate_clicked : bool
}.

(** The files the script can open: [open(path, "rb").read()]. *)
Record Host : Type := {
  read_binary : pystr -> Res pybytes
}.

(** The elements the script puts on the page. *)
Inductive Element : Type :=
| ElPageConfig (page_title layout : pystr)
| ElMarkdown (body : pystr) (unsafe_allow_html : bool)
| ElTitle (body : pystr)
| ElHeader (body : pystr)
| ElSubheader (body : pystr)
| ElRadio (label : pystr) (options : list pystr)
| ElTextArea (label value : pystr) (height : Z) (disabled : bool)
| ElFileUploader (label : pystr) (type : list pystr)
| ElSelectbox (label : pystr) (options : list pystr)
| ElButton (label type : pystr)
| ElAudio (data : pybytes) (format : pystr)
| ElDownloadButton (button : DownloadButton)
| ElInfo (body : pystr)
| ElColumns (columns : list (list Element))
| ElExpander (label : pystr) (children : list Element).

(** *** [set_background] *)

Definition newline : pystr := [10%N].

(** The f-string of [style], around the encoded image. *)
Definition style_before : pystr :=
  newline ++ str "        <style>" ++
  newline ++ str "        .stApp {" ++
  newline ++ str "            background-image: url(data:image/png;base64,".

Definition style_after : pystr :=
  str ");" ++
  newline ++ str "            background-size: cover;" ++
  newline ++ str "        }" ++
  newline ++ str "        </style>" ++
  newline ++ str "    ".

(** Nothing is caught here: a file that cannot be read raises. *)
Definition set_background (host : Host) (image_file : pystr) : Res Element :=
  match read_binary host image_file with
  | Raise e => Raise e
  | Ret img_data =>
      match utf8_decode (b64encode img_data) with
      | Raise e => Raise e
      | Ret b64_encoded =>
          let style := style_before ++ b64_encoded ++ style_after in
          Ret (ElMarkdown style true)
      end
  end.

(** *** Component 1: the text *)

(** The text of the form and the elements shown for it. The decoding of an
    uploaded file is not guarded. *)
Definition provide_text (wd : Widgets) : Res pystr * list Element :=
  let text_input : pystr := [] in
  if decide (method_label (input_method wd) = str "Paste Text") then
    (Ret (pasted_text wd),
     [ElTextArea (str "Paste your text here:") (pasted_text wd) 150 false])
  else
    let uploader := ElFileUploader (str "Upload a .txt file") [str "txt"] in
    match uploaded_file wd with
    | Some content =>
        match utf8_decode content with
        | Ret text_input =>
            (Ret text_input,
             [uploader; ElTextArea (str "File Content:") text_input 150 true])
        | Raise e => (Raise e, [uploader])
        end
    | None => (Ret text_input, [uploader])
    end.

(** *** Components 3 and 4: the latest narration *)

Definition latest_view (h : list NarrationRecord) : list Element :=
  if truthy h then
    match h !! 0 with
    | Some latest =>
        [ElHeader (str "Your Generated Audiobook");
         ElSubheader (str "Original vs. Rewritten Text");
         ElColumns
           [[ElTextArea (str "Original Text") (original latest) 200 true];
            [ElTextArea (str "Rewritten Text") (rewritten latest) 200 true]];
         ElSubheader (str "Listen to Your Audiobook");
         ElAudio (audio latest) (str "audio/mp3");
         ElDownloadButton {| label := str "Download MP3";
                             data := audio latest;
                             file_name := download_file_name latest;
                             mime := str "audio/mp3" |}]
    | None => []
    end
  else [].

(** *** Component 5: the past narrations *)

(** The f-string of the heading of an entry. *)
Definition narration_heading (number : nat) (narration : NarrationRecord) : pystr :=
  str "**Narration " ++ str_of_nat number ++ str "** (Tone: " ++ tone narration
    ++ str ", Accent: " ++ accent narration ++ str ")".

(** The body of the [for] loop, for the entry of index [i] of [n] entries. *)
Definition narration_entry (n i : nat) (narration : NarrationRecord) : list Element :=
  [ElMarkdown (str "---") false;
   ElMarkdown (narration_heading (n - i) narration) false;
   ElInfo (str "Rewritten Text: *" ++ rewritten narration ++ str "*");
   ElAudio (audio narration) (str "audio/mp3")].

(** What the [for] loop puts in the expander. *)
Definition panel_entries (h : list NarrationRecord) : list Element :=
  concat (imap (narration_entry (length h)) h).

Definition past_narrations (h : list NarrationRecord) : list Element :=
  if (0 <? length h)%nat then
    [ElHeader (str "Past Narrations");
     ElExpander (str "View your session history") (panel_entries h)]
  else [].

(** *** The script *)

Definition page_top (style : Element) : list Element :=
  [ElPageConfig (str "EchoVerse") (str "centered");
   style;
   ElTitle ([127911%N; 32%N] ++ str "EchoVerse (Open Source Edition)");
   ElMarkdown (str "An AI-Powered Audiobook Creation Tool") false;
   ElHeader (str "1. Provide Your Text");
   ElRadio (str "Choose input method") [str "Paste Text"; str "Upload .txt File"]].

Definition page_form : list Element :=
  [ElHeader (str "2. Customize Your Narration");
   ElColumns [[ElSelectbox (str "Select a Tone:") tone_options];
              [ElSelectbox (str "Select an Accent:") accent_options]];
   ElButton (str "Generate Audiobook") (str "primary")].

Section Script.

Variable svc : Services.
Variable host : Host.

(** [if 'history' not in st.session_state: st.session_state.history = []]:
    the state the script works on, from what the session holds. *)
Definition session_start (stored : option (list NarrationRecord))
    (tr : list Event) (w : World svc) : State svc :=
  {| history := match stored with Some h => h | None => [] end;
     trace := tr;
     world := w |}.

(** The script after that first statement, from top to bottom: its outcome,
    the elements on the page and the state it leaves. An exception that is
    raised outside the adapters ends the run where it is. *)
Definition app (wd : Widgets) (s0 : State svc)
  : Res unit * list Element * State svc :=
  match set_background host (str "assets/background.jpg") with
  | Raise e => (Raise e, [ElPageConfig (str "EchoVerse") (str "centered")], s0)
  | Ret style =>
      match provide_text wd with
      | (Raise e, shown) => (Raise e, page_top style ++ shown, s0)
      | (Ret text_input, shown) =>
          let page := page_top style ++ shown ++ page_form in
          let (r, s1) :=
            if generate_clicked wd then
              generate_audiobook svc text_input
                (tone_label (selected_tone wd)) (accent_label (selected_accent wd)) s0
            else (Ret tt, s0) in
          match r with
          | Raise e => (Raise e, page, s1)
          | Ret _ =>
              (Ret tt,
               page ++ latest_view (history s1) ++ past_narrations (history s1),
               s1)
          end
      end
  end.

(** One run of the script in a session that holds [stored]. *)
Definition run_script (wd : Widgets) (stored : option (list NarrationRecord))
    (tr : list Event) (w : World svc)
  : Res unit * list Element * State svc :=
  app wd (session_start stored tr w).

(** The runs of a session, one per interaction: each finds the history the
    one before left in [st.session_state]. *)
Definition session (wds : list Widgets) (s0 : State svc) : State svc :=
  fold_left
    (fun s wd => snd (run_script wd (Some (history s)) (trace s) (world s)))
    wds s0.

End Script.

Arguments session_start {svc} stored tr w.

(** A host for the examples: one image, three bytes long. *)
Definition one_image : Host :=
  {| read_binary := fun path =>
       if decide (path = str "assets/background.jpg")
       then Ret [Byte.xff; Byte.xd8; Byte.xff]
       else Raise (ServiceError (str "FileNotFoundError") path) |}.

(** A host without files. *)
Definition no_files : Host :=
  {| read_binary := fun path => Raise (ServiceError (str "FileNotFoundError") path) |}.

Definition browse : Widgets :=
  {| input_method := PasteText;
     pasted_text := str "Hello world";
     uploaded_file := None;
     selected_tone := Inspiring;
     selected_accent := UKEnglish;
     generate_clicked := false |}.

Definition upload_nothing : Widgets :=
  {| input_method := UploadFile;
     pasted_text := [];
     uploaded_file := None;
     selected_tone := Neutral;
     selected_accent := USEnglish;
     generate_clicked := true |}.

Definition upload_latin1 : Widgets :=
  {| input_method := UploadFile;
     pasted_text := [];
     uploaded_file := Some [Byte.xe9; Byte.x74; Byte.xe9];
     selected_tone := Neutral;
     selected_accent := USEnglish;
     generate_clicked := true |}.

(** A file with a byte order mark and a line end, nothing else. *)
Definition upload_bom : Widgets :=
  {| input_method := UploadFile;
     pasted_text := [];
     uploaded_file := Some [Byte.xef; Byte.xbb; Byte.xbf; Byte.x0d; Byte.x0a];
     selected_tone := Neutral;
     selected_accent := USEnglish;
     generate_clicked := true |}.

Definition paste_hello : Widgets :=
  {| input_method := PasteText;
     pasted_text := str "Hello world";
     uploaded_file := None;
     selected_tone := Neutral;
     selected_accent := USEnglish;
     generate_clicked := true |}.

Definition upload_hello : Widgets :=
  {| input_method := UploadFile;
     pasted_text := [];
     uploaded_file := Some (list_byte_of_string "Hello world");
     selected_tone := Neutral;
     selected_accent := USEnglish;
     generate_clicked := true |}.

(** ** More vocabulary *)

(** The messages the user is shown: [st.warning], [st.error], [st.success]. *)
Definition is_message (ev : Event) : bool :=
  match ev with
  | StWarning _ | StError _ _ | StSuccess _ => true
  | _ => false
  end.

(** A call of the text model. *)
Definition is_generate_call (ev : Event) : bool :=
  match ev with
  | HfGenerate _ _ _ _ => true
  | _ => false
  end.

(** A construction of a [gTTS] object. *)
Definition is_gtts_call (ev : Event) : bool :=
  match ev with
  | GttsNew _ _ _ _ => true
  | _ => false
  end.

(** The two spinners and the messages of the handler. *)
Definition spinner_rewriting : Event :=
  StSpinner (str "Rewriting text... (This may take a moment on first run)").

Definition spinner_synthesizing : Event :=
  StSpinner (str "Synthesizing audio...").

Definition warning_no_text : Event :=
  StWarning (str "Please provide some text to generate the audiobook.").

Definition success_generated : Event :=
  StSuccess (str "Audiobook generated successfully!").

(** The beginnings of the two error messages. *)
Definition rewriting_error : pystr := str "Error during tone rewriting: ".

Definition audio_error : pystr := str "Error during audio generation: ".

(** A record as the handler builds them: a text that is not blank, a
    rewritten text that is neither empty nor padded with white space, audio
    that is not empty, and an accent of the table. *)
Definition complete_record (r : NarrationRecord) : Prop :=
  strip (original r) <> []
  /\ rewritten r <> []
  /\ strip (rewritten r) = rewritten r
  /\ audio r <> []
  /\ accent r ∈ accent_options.

(** A character of Base64 text: a letter, a digit, "+", "/" or "=". *)
Definition is_b64_char (c : N) : bool :=
  ((65 <=? c) && (c <=? 90) || (97 <=? c) && (c <=? 122)
   || (48 <=? c) && (c <=? 57) || (c =? 43) || (c =? 47) || (c =? 61))%N.

(** The text model answers an empty list. *)
Definition empty_answer : Services := mock (Ret []) (Ret mp3_chunks).

(** The pipeline cannot be loaded. *)
Definition pipeline_down : Services :=
  {| World := nat;
     Pipeline := unit;
     Tts := unit;
     unicode_lower := fun s => s;
     hf_pipeline := fun w =>
       (Raise (ServiceError (str "OSError") (str "model not found")), S w);
     hf_generate := fun _ _ _ _ _ w => (generated (str "  A calm morning. "), S w);
     gtts_new := fun _ _ _ _ w => (Ret tt, S w);
     gtts_stream := fun _ w => (Ret mp3_chunks, S w) |}.

(** The speech service streams nothing. *)
Definition no_audio : Services :=
  mock (generated (str "  A calm morning. ")) (Ret []).

(** * Properties *)

(** ** Strings *)

Lemma lstrip_split (s : pystr) :
  exists pre, s = pre ++ lstrip s /\ forallb isspace pre = true.
Proof.
  induction s as [|c s [pre [Hs Hpre]]]; simpl.
  - exists []. split; reflexivity.
  - destruct (isspace c) eqn:Hc.
    + exists (c :: pre). simpl. rewrite Hc, Hpre. split; [congruence | reflexivity].
    + exists []. split; reflexivity.
Qed.

Lemma lstrip_head (s : pystr) :
  match lstrip s with c :: _ => isspace c = false | [] => True end.
Proof.
  induction s as [|c s IH]; simpl; [exact I|].
  destruct (isspace c) eqn:Hc; [exact IH | exact Hc].
Qed.

Lemma rstrip_split (s : pystr) :
  exists post, s = rstrip s ++ post /\ forallb isspace post = true.
Proof.
  unfold rstrip. destruct (lstrip_split (rev s)) as [pre [Hs Hpre]].
  exists (rev pre). split.
  - rewrite <- rev_app_distr, <- Hs, rev_involutive. reflexivity.
  - rewrite forallb_forall in *. intros x Hx. apply Hpre, in_rev, Hx.
Qed.

Lemma rstrip_last (s : pystr) :
  match rev (rstrip s) with c :: _ => isspace c = false | [] => True end.
Proof. unfold rstrip. rewrite rev_involutive. apply lstrip_head. Qed.

Lemma rstrip_keeps_head (s : pystr) :
  match s with c :: _ => isspace c = false | [] => True end ->
  match rstrip s with c :: _ => isspace c = false | [] => True end.
Proof.
  destruct (rstrip_split s) as [post [Hs Hpost]].
  destruct (rstrip s) as [|c r] eqn:Hr; [intros; exact I|].
  rewrite Hs. simpl. tauto.
Qed.

(** [strip] removes white space at both ends, and nothing else. *)
Lemma strip_spec (s : pystr) :
  (exists pre post,
      s = pre ++ strip s ++ post
      /\ forallb isspace pre = true /\ forallb isspace post = true)
  /\ match strip s with c :: _ => isspace c = false | [] => True end
  /\ match rev (strip s) with c :: _ => isspace c = false | [] => True end.
Proof.
  unfold strip. split; [|split].
  - destruct (lstrip_split s) as [pre [Hs Hpre]].
    destruct (rstrip_split (lstrip s)) as [post [Hl Hpost]].
    exists pre, post. split; [|split]; try assumption.
    rewrite <- Hl. exact Hs.
  - apply rstrip_keeps_head, lstrip_head.
  - apply rstrip_last.
Qed.

Lemma startswith_app (p s : pystr) : startswith p (p ++ s) = true.
Proof.
  induction p as [|a p IH]; simpl; [reflexivity|].
  rewrite N.eqb_refl. exact IH.
Qed.

Lemma contains_prefix (needle hay : pystr) :
  startswith needle hay = true -> contains needle hay = true.
Proof. destruct hay; simpl; intros ->; reflexivity. Qed.

Lemma contains_app (needle pre post : pystr) :
  contains needle (pre ++ needle ++ post) = true.
Proof.
  induction pre as [|a pre IH]; simpl.
  - apply contains_prefix, startswith_app.
  - rewrite IH. apply orb_true_r.
Qed.

(** ** Locality of the adapters *)

Create HintDb local_db.

Section Locality.

Variable svc : Services.

Lemma local_ret {A} (a : A) : local (@ret svc A a).
Proof. intros [h tr w]. unfold isolated, ret. simpl. rewrite app_nil_r. reflexivity. Qed.

Lemma local_raise {A} (e : exn) : local (@raise svc A e).
Proof. intros [h tr w]. unfold isolated, raise. simpl. rewrite app_nil_r. reflexivity. Qed.

Lemma local_emit (ev : Event) : local (@emit svc ev).
Proof. intros [h tr w]. reflexivity. Qed.

Lemma local_call {A} (ev : Event) (f : World svc -> Res A * World svc) :
  local (call ev f).
Proof. intros [h tr w]. unfold isolated, call. simpl. destruct (f w). reflexivity. Qed.

(** Run on its own, a local computation leaves an empty history. *)
Lemma local_isolated {A} (m : M svc A) (w : World svc) :
  local m ->
  m (new_session w) =
  let '(r, evs, w') := isolated m w in
  (r, {| history := []; trace := evs; world := w' |}).
Proof. intros Hm. rewrite (Hm (new_session w)) at 1. simpl. destruct (isolated m w) as [[r evs] w']. reflexivity. Qed.

Lemma local_bind {A B} (m : M svc A) (k : A -> M svc B) :
  local m -> (forall a, local (k a)) -> local (bind m k).
Proof.
  intros Hm Hk s. unfold isolated at 1. unfold bind.
  rewrite (Hm s), (local_isolated m (world s) Hm).
  destruct (isolated m (world s)) as [[[a|e] evs] w1]; [|reflexivity].
  rewrite (Hk a), (Hk a {| history := []; trace := evs; world := w1 |}). simpl.
  destruct (isolated (k a) w1) as [[r evs'] w2]. simpl.
  rewrite app_assoc. reflexivity.
Qed.

Lemma local_try_except {A} (body : M svc A) (handler : exn -> M svc A) :
  local body -> (forall e, local (handler e)) -> local (try_except body handler).
Proof.
  intros Hm Hk s. unfold isolated at 1. unfold try_except.
  rewrite (Hm s), (local_isolated body (world s) Hm).
  destruct (isolated body (world s)) as [[[a|e] evs] w1]; [reflexivity|].
  rewrite (Hk e), (Hk e {| history := []; trace := evs; world := w1 |}). simpl.
  destruct (isolated (handler e) w1) as [[r evs'] w2]. simpl.
  rewrite app_assoc. reflexivity.
Qed.

Lemma local_getitem {A} (l : list A) (i : nat) : local (@getitem svc A l i).
Proof. unfold getitem. destruct (l !! i); [apply local_ret | apply local_raise]. Qed.

Lemma local_dict_getitem {A} (d : gmap pystr A) (k : pystr) :
  local (@dict_getitem svc A d k).
Proof. unfold dict_getitem. destruct (d !! k); [apply local_ret | apply local_raise]. Qed.

Hint Resolve local_ret local_raise local_emit local_call local_bind
  local_try_except local_getitem local_dict_getitem : local_db.

Lemma local_rewrite (text tone : pystr) : local (rewrite_text_with_tone svc text tone).
Proof. unfold rewrite_text_with_tone, load_rewriting_model. auto 12 with local_db. Qed.

Lemma local_convert (text accent : pystr) : local (convert_text_to_speech svc text accent).
Proof. unfold convert_text_to_speech. cbv zeta. auto 12 with local_db. Qed.

(** What an adapter returns in a world, it returns in every state of that
    world, and it leaves the history alone. *)
Lemma adapter_run {A} (m : M svc A) (w : World svc) (r : A) (w' : World svc) :
  local m -> adapter_returns m w r w' ->
  forall s, world s = w ->
    exists evs,
      isolated m w = (Ret r, evs, w')
      /\ m s = (Ret r, {| history := history s; trace := trace s ++ evs; world := w' |}).
Proof.
  intros Hm (s0 & s0' & Hw & Hrun & Hw') s Hs.
  rewrite (Hm s0), Hw in Hrun. rewrite (Hm s), Hs.
  destruct (isolated m w) as [[r1 evs] w1].
  injection Hrun as -> <-. simpl in Hw'. subst w1.
  exists evs. split; reflexivity.
Qed.

End Locality.

(** ** One step of the monad *)

Lemma bind_ret_eq {svc A B} (m : M svc A) (k : A -> M svc B) s a s' :
  m s = (Ret a, s') -> bind m k s = k a s'.
Proof. unfold bind. intros ->. reflexivity. Qed.

Lemma nonempty_truthy {A} (l : list A) : l <> [] -> truthy l = true.
Proof. destruct l; [congruence | reflexivity]. Qed.

(** ** The adapters catch what the services raise *)

Section AdapterRuns.

Variable svc : Services.

Ltac trace_shape := rewrite <- ?app_assoc; simpl; reflexivity.

(** The rewrite adapter returns (a text or [None]), keeps the history and
    adds no event of the synthesis adapter. *)
Lemma rewrite_run (text tone : pystr) (s : State svc) :
  exists r evs w',
    rewrite_text_with_tone svc text tone s
    = (Ret r, {| history := history s; trace := trace s ++ evs; world := w' |})
    /\ Forall (fun ev => is_synth_event ev = false) evs.
Proof.
  destruct s as [h tr w].
  unfold rewrite_text_with_tone, load_rewriting_model, bind, try_except, emit, call, ret.
  simpl.
  destruct (hf_pipeline svc w) as [[p|e] w1]; simpl.
  - destruct (hf_generate svc p _ 300%Z 4%Z true w1) as [[[|d ds]|e] w2]; simpl.
    + eexists _, _, _. split; [trace_shape | repeat constructor].
    + unfold dict_getitem. destruct (d !! str "generated_text"); simpl;
        (eexists _, _, _; split; [trace_shape | repeat constructor]).
    + eexists _, _, _. split; [trace_shape | repeat constructor].
  - eexists _, _, _. split; [trace_shape | repeat constructor].
Qed.

(** The synthesis adapter returns (bytes or [None]) and keeps the history. *)
Lemma convert_run (text accent : pystr) (s : State svc) :
  exists r evs w',
    convert_text_to_speech svc text accent s
    = (Ret r, {| history := history s; trace := trace s ++ evs; world := w' |}).
Proof.
  destruct s as [h tr w].
  unfold convert_text_to_speech, bind, try_except, emit, call, ret, dict_getitem.
  simpl.
  destruct (tld_map !! accent) as [tld|]; simpl.
  - destruct (gtts_new svc text (str "en") tld false w) as [[t|e] w1]; simpl.
    + destruct (gtts_stream svc t w1) as [[chunks|e] w2]; simpl;
        (eexists _, _, _; trace_shape).
    + eexists _, _, _; trace_shape.
  - eexists _, _, _; trace_shape.
Qed.

End AdapterRuns.

(** ** The handler *)

Section Handler.

Variable svc : Services.

Local Abbreviation after_event s ev :=
  {| history := history s; trace := trace s ++ [ev]; world := world s |}.

Lemma emit_eq (ev : Event) (s : State svc) :
  emit ev s = (Ret tt, after_event s ev).
Proof. reflexivity. Qed.

(** Both adapters succeed: the handler inserts the record at the head. *)
Lemma generate_success (text tone accent rw : pystr) (au : pybytes)
    (s : State svc) (w1 w2 : World svc) :
  strip text <> [] ->
  adapter_returns (rewrite_text_with_tone svc text tone) (world s) (Some rw) w1 ->
  rw <> [] ->
  adapter_returns (convert_text_to_speech svc rw accent) w1 (Some au) w2 ->
  au <> [] ->
  exists evs,
    generate_audiobook svc text tone accent s
    = (Ret tt,
       {| history := {| original := text; rewritten := rw; tone := tone;
                        accent := accent; audio := au |} :: history s;
          trace := trace s ++ evs;
          world := w2 |}).
Proof.
  intros Htext Hrw Hrw_ne Hau Hau_ne.
  unfold generate_audiobook. rewrite (nonempty_truthy _ Htext). cbn [negb].
  rewrite (bind_ret_eq _ _ _ _ _ (emit_eq _ s)).
  match goal with |- context [bind (rewrite_text_with_tone svc _ _) _ ?st] =>
      destruct (adapter_run svc _ _ _ _ (local_rewrite svc text tone) Hrw
                  st eq_refl) as (evs1 & _ & E1)
    end.
  rewrite (bind_ret_eq _ _ _ _ _ E1). clear E1.
  destruct rw as [|c rw]; [congruence|].
  rewrite (bind_ret_eq _ _ _ _ _ (emit_eq _ _)).
  match goal with |- context [bind (convert_text_to_speech svc _ _) _ ?st] =>
    destruct (adapter_run svc _ _ _ _ (local_convert svc (c :: rw) accent) Hau
                st eq_refl) as (evs2 & _ & E2)
  end.
  rewrite (bind_ret_eq _ _ _ _ _ E2). clear E2.
  destruct au as [|b au]; [congruence|].
  rewrite (bind_ret_eq _ _ _ _ _ (emit_eq _ _)).
  unfold history_insert. simpl.
  eexists. rewrite <- !app_assoc. reflexivity.
Qed.

(** The rewrite adapter returns nothing usable: the handler stops there. *)
Lemma generate_rewrite_unusable (text tone accent : pystr) (r : option pystr)
    (s : State svc) (w1 : World svc) :
  adapter_returns (rewrite_text_with_tone svc text tone) (world s) r w1 ->
  truthy_opt r = false ->
  exists evs s',
    generate_audiobook svc text tone accent s = (Ret tt, s')
    /\ history s' = history s
    /\ trace s' = trace s ++ evs
    /\ Forall (fun ev => is_synth_event ev = false) evs.
Proof.
  intros Hrw Hr.
  unfold generate_audiobook. destruct (truthy (strip text)); cbn [negb].
  - rewrite (bind_ret_eq _ _ _ _ _ (emit_eq _ s)).
    destruct (rewrite_run svc text tone (after_event s
                (StSpinner (str "Rewriting text... (This may take a moment on first run)"))))
      as (r' & evs & w' & E & Hevs).
    match goal with |- context [bind (rewrite_text_with_tone svc _ _) _ ?st] =>
      destruct (adapter_run svc _ _ _ _ (local_rewrite svc text tone) Hrw
                  st eq_refl) as (evs1 & _ & E1)
    end.
    rewrite E in E1. injection E1 as -> _ _.
    rewrite (bind_ret_eq _ _ _ _ _ E).
    destruct r as [[|c rw]|]; try discriminate;
      (eexists _, _; split; [reflexivity|]; simpl; split; [reflexivity|];
       rewrite <- app_assoc; split; [reflexivity|]; simpl; constructor;
       [reflexivity | assumption]).
  - eexists _, _. split; [reflexivity|]. simpl. repeat split.
    repeat constructor.
Qed.

(** The synthesis adapter returns nothing usable: no record is inserted. *)
Lemma generate_synth_unusable (text tone accent rw : pystr) (a : option pybytes)
    (s : State svc) (w1 w2 : World svc) :
  adapter_returns (rewrite_text_with_tone svc text tone) (world s) (Some rw) w1 ->
  rw <> [] ->
  adapter_returns (convert_text_to_speech svc rw accent) w1 a w2 ->
  truthy_opt a = false ->
  exists s',
    generate_audiobook svc text tone accent s = (Ret tt, s')
    /\ history s' = history s.
Proof.
  intros Hrw Hrw_ne Hau Ha.
  unfold generate_audiobook. destruct (truthy (strip text)); cbn [negb].
  - rewrite (bind_ret_eq _ _ _ _ _ (emit_eq _ s)).
    match goal with |- context [bind (rewrite_text_with_tone svc _ _) _ ?st] =>
      destruct (adapter_run svc _ _ _ _ (local_rewrite svc text tone) Hrw
                  st eq_refl) as (evs1 & _ & E1)
    end.
    rewrite (bind_ret_eq _ _ _ _ _ E1). clear E1.
    destruct rw as [|c rw]; [congruence|].
    rewrite (bind_ret_eq _ _ _ _ _ (emit_eq _ _)).
    match goal with |- context [bind (convert_text_to_speech svc _ _) _ ?st] =>
      destruct (adapter_run svc _ _ _ _ (local_convert svc (c :: rw) accent) Hau
                  st eq_refl) as (evs2 & _ & E2)
    end.
    rewrite (bind_ret_eq _ _ _ _ _ E2). clear E2.
    destruct a as [[|b au]|]; try discriminate;
      (eexists; split; reflexivity).
  - eexists. split; reflexivity.
Qed.

(** Whatever the inputs and the services do, the handler returns, and the
    history it leaves is the one it found, with at most one record before it. *)
Lemma generate_run (text tone accent : pystr) (s : State svc) :
  exists s',
    generate_audiobook svc text tone accent s = (Ret tt, s')
    /\ (history s' = history s \/ exists r, history s' = r :: history s).
Proof.
  unfold generate_audiobook. destruct (truthy (strip text)); cbn [negb].
  - rewrite (bind_ret_eq _ _ _ _ _ (emit_eq _ s)).
    destruct (rewrite_run svc text tone (after_event s
                (StSpinner (str "Rewriting text... (This may take a moment on first run)"))))
      as (r & evs & w' & E & _).
    rewrite (bind_ret_eq _ _ _ _ _ E). clear E.
    destruct r as [[|c rw]|]; try (eexists; split; [reflexivity | left; reflexivity]).
    rewrite (bind_ret_eq _ _ _ _ _ (emit_eq _ _)).
    match goal with |- context [bind (convert_text_to_speech svc ?t ?a) _ ?st] =>
      destruct (convert_run svc t a st) as (r & evs2 & w2 & E2)
    end.
    rewrite (bind_ret_eq _ _ _ _ _ E2). clear E2.
    destruct r as [[|b au]|]; try (eexists; split; [reflexivity | left; reflexivity]).
    rewrite (bind_ret_eq _ _ _ _ _ (emit_eq _ _)).
    eexists; split; [reflexivity | right; eexists; reflexivity].
  - eexists; split; [reflexivity | left; reflexivity].
Qed.

End Handler.

(** * The claims *)

(** C1. When the trimmed input is not empty, the rewrite adapter returns a
    usable (non-empty) text and the synthesis adapter returns audio bytes
    (a non-empty [bytes], which is what the handler's [if audio_data:]
    accepts), the handler returns with a history that is the old one with
    exactly one record before it: the record of the original text, the
    rewritten text, the tone, the accent and the audio. This holds for every
    tone and accent string, so for the three tones and three accents of the
    form. *)
Theorem generate_prepends_record (svc : Services) (text tone accent rw : pystr)
    (au : pybytes) (s : State svc) (w1 w2 : World svc) :
  strip text <> [] ->
  adapter_returns (rewrite_text_with_tone svc text tone) (world s) (Some rw) w1 ->
  rw <> [] ->
  adapter_returns (convert_text_to_speech svc rw accent) w1 (Some au) w2 ->
  au <> [] ->
  exists s',
    generate_audiobook svc text tone accent s = (Ret tt, s')
    /\ history s' = {| original := text; rewritten := rw; tone := tone;
                      accent := accent; audio := au |} :: history s
    /\ head (history s') = Some {| original := text; rewritten := rw; tone := tone;
                                   accent := accent; audio := au |}
    /\ tail (history s') = history s.
Proof.
  intros Htext Hrw Hrw_ne Hau Hau_ne.
  destruct (generate_success svc text tone accent rw au s w1 w2
              Htext Hrw Hrw_ne Hau Hau_ne) as [evs E].
  eexists. split; [exact E|]. simpl. repeat split.
Qed.

Lemma generate_prepends_record_witness :
  exists s',
    generate_audiobook good (str "Hello world") (str "Neutral") (str "US English")
      (new_session (0 : World good)) = (Ret tt, s')
    /\ history s' = [ {| original := str "Hello world";
                         rewritten := str "A calm morning.";
                         tone := str "Neutral";
                         accent := str "US English";
                         audio := mp3 |} ]
    /\ head (history s') = Some {| original := str "Hello world";
                                   rewritten := str "A calm morning.";
                                   tone := str "Neutral";
                                   accent := str "US English";
                                   audio := mp3 |}
    /\ tail (history s') = [].
Proof.
  apply (generate_prepends_record good (str "Hello world") (str "Neutral")
           (str "US English") (str "A calm morning.") mp3
           (new_session (0 : World good)) (2 : World good) (4 : World good)).
  - vm_compute. discriminate.
  - exists (new_session (0 : World good)). eexists.
    split; [reflexivity | split; [vm_compute; reflexivity | reflexivity]].
  - discriminate.
  - exists (new_session (2 : World good)). eexists.
    split; [reflexivity | split; [vm_compute; reflexivity | reflexivity]].
  - discriminate.
Defined.

(** C3. When the rewrite adapter reports failure (it returns [None]), the
    run of the handler adds no event of the synthesis adapter (neither its
    entry nor a call of gTTS) and leaves the history as it was. *)
Theorem rewrite_failure_stops_run (svc : Services) (text tone accent : pystr)
    (s : State svc) (w1 : World svc) :
  adapter_returns (rewrite_text_with_tone svc text tone) (world s) None w1 ->
  exists evs s',
    generate_audiobook svc text tone accent s = (Ret tt, s')
    /\ history s' = history s
    /\ trace s' = trace s ++ evs
    /\ Forall (fun ev => is_synth_event ev = false) evs.
Proof.
  intros Hrw.
  exact (generate_rewrite_unusable svc text tone accent None s w1 Hrw eq_refl).
Qed.

Lemma rewrite_failure_stops_run_witness :
  exists evs s',
    generate_audiobook rewrite_down (str "Hello world") (str "Neutral")
      (str "US English") (new_session (0 : World rewrite_down)) = (Ret tt, s')
    /\ history s' = []
    /\ trace s' = [] ++ evs
    /\ Forall (fun ev => is_synth_event ev = false) evs.
Proof.
  apply (rewrite_failure_stops_run rewrite_down (str "Hello world") (str "Neutral")
           (str "US English") (new_session (0 : World rewrite_down))
           (2 : World rewrite_down)).
  exists (new_session (0 : World rewrite_down)). eexists.
  split; [reflexivity | split; [vm_compute; reflexivity | reflexivity]].
Defined.

(** C4. When the rewrite adapter returns a usable text and the synthesis
    adapter reports failure (it returns [None]), the handler returns and the
    history is exactly the one before the run. *)
Theorem synthesis_failure_keeps_history (svc : Services)
    (text tone accent rw : pystr) (s : State svc) (w1 w2 : World svc) :
  adapter_returns (rewrite_text_with_tone svc text tone) (world s) (Some rw) w1 ->
  rw <> [] ->
  adapter_returns (convert_text_to_speech svc rw accent) w1 None w2 ->
  exists s',
    generate_audiobook svc text tone accent s = (Ret tt, s')
    /\ history s' = history s.
Proof.
  intros Hrw Hrw_ne Hau.
  exact (generate_synth_unusable svc text tone accent rw None s w1 w2
           Hrw Hrw_ne Hau eq_refl).
Qed.

Lemma synthesis_failure_keeps_history_witness :
  exists s',
    generate_audiobook speech_down (str "Hello world") (str "Neutral")
      (str "US English") (new_session (0 : World speech_down)) = (Ret tt, s')
    /\ history s' = [].
Proof.
  apply (synthesis_failure_keeps_history speech_down (str "Hello world")
           (str "Neutral") (str "US English") (str "A calm morning.")
           (new_session (0 : World speech_down))
           (2 : World speech_down) (4 : World speech_down)).
  - exists (new_session (0 : World speech_down)). eexists.
    split; [reflexivity | split; [vm_compute; reflexivity | reflexivity]].
  - discriminate.
  - exists (new_session (2 : World speech_down)). eexists.
    split; [reflexivity | split; [vm_compute; reflexivity | reflexivity]].
Defined.

(** C5. When the input text is empty once trimmed, whatever the tone and
    the accent, the handler only shows the warning: the one event it adds is
    [st.warning], so neither adapter is entered and no service is called;
    the history and the world are unchanged. *)
Theorem empty_input_warns (svc : Services) (text tone accent : pystr)
    (s : State svc) :
  strip text = [] ->
  generate_audiobook svc text tone accent s
  = (Ret tt,
     {| history := history s;
        trace := trace s ++
          [StWarning (str "Please provide some text to generate the audiobook.")];
        world := world s |}).
Proof.
  intros Htext. unfold generate_audiobook. rewrite Htext. reflexivity.
Qed.

Lemma empty_input_warns_witness :
  generate_audiobook good [32; 9; 10; 160]%N (str "Inspiring")
    (str "Australian English") (new_session (0 : World good))
  = (Ret tt,
     Build_State good []
       [StWarning (str "Please provide some text to generate the audiobook.")]
       0).
Proof.
  apply (empty_input_warns good [32; 9; 10; 160]%N (str "Inspiring")
           (str "Australian English") (new_session (0 : World good))).
  vm_compute. reflexivity.
Defined.

(** ** Sessions *)

Section Sessions.

Variable svc : Services.

Lemma run_record_success (p : Press) (s : State svc) (r : NarrationRecord) :
  run_record p s = Some r -> history (run_press p s) = r :: history s.
Proof.
  unfold run_record, run_press.
  destruct (truthy (strip (press_text p))) eqn:Htext; [|discriminate].
  destruct (rewrite_text_with_tone svc (press_text p) (press_tone p) s)
    as [[[[|c rw]|]|e] s1] eqn:E1; try discriminate.
  destruct (convert_text_to_speech svc (c :: rw) (press_accent p) s1)
    as [[[[|b au]|]|e] s2] eqn:E2; try discriminate.
  intros [= <-].
  destruct (generate_success svc (press_text p) (press_tone p) (press_accent p)
              (c :: rw) (b :: au) s (world s1) (world s2)) as [evs E].
  - intros H. rewrite H in Htext. discriminate.
  - exists s, s1. split; [reflexivity | split; [exact E1 | reflexivity]].
  - discriminate.
  - exists s1, s2. split; [reflexivity | split; [exact E2 | reflexivity]].
  - discriminate.
  - rewrite E. reflexivity.
Qed.

(** A press adds the record of [run_record], and nothing when there is none. *)
Lemma run_press_history (p : Press) (s : State svc) :
  history (run_press p s) =
  match run_record p s with
  | Some r => r :: history s
  | None => history s
  end.
Proof.
  destruct (run_record p s) as [r|] eqn:Hr; [exact (run_record_success p s r Hr)|].
  revert Hr. unfold run_record, run_press.
  destruct (truthy (strip (press_text p))) eqn:Htext.
  - destruct (rewrite_run svc (press_text p) (press_tone p) s)
      as (r & evs & w' & E1 & _).
    rewrite E1.
    assert (Hrw : adapter_returns
                    (rewrite_text_with_tone svc (press_text p) (press_tone p))
                    (world s) r w').
    { exists s. eexists. split; [reflexivity | split; [exact E1 | reflexivity]]. }
    destruct r as [[|c rw]|].
    + intros _.
      destruct (generate_rewrite_unusable svc _ _ (press_accent p) _ s w' Hrw eq_refl)
        as (evs' & s' & E & Hh & _).
      rewrite E. exact Hh.
    + match goal with |- context [convert_text_to_speech svc ?t ?a ?st] =>
        destruct (convert_run svc t a st) as (a' & evs2 & w2 & E2)
      end.
      rewrite E2.
      assert (Hau : adapter_returns
                      (convert_text_to_speech svc (c :: rw) (press_accent p))
                      w' a' w2).
      { eexists. eexists. split; [|split; [exact E2 | reflexivity]]. reflexivity. }
      assert (Hrw_ne : c :: rw <> []) by discriminate.
      destruct a' as [[|b au]|]; try discriminate; intros _;
        (destruct (generate_synth_unusable svc (press_text p) (press_tone p)
                     (press_accent p) (c :: rw) _ s w' w2 Hrw Hrw_ne Hau eq_refl)
           as (s' & E & Hh);
         rewrite E; exact Hh).
    + intros _.
      destruct (generate_rewrite_unusable svc _ _ (press_accent p) _ s w' Hrw eq_refl)
        as (evs' & s' & E & Hh & _).
      rewrite E. exact Hh.
  - intros _. unfold generate_audiobook. rewrite Htext. reflexivity.
Qed.

Lemma run_press_suffix (p : Press) (s : State svc) :
  history s `suffix_of` history (run_press p s).
Proof.
  unfold run_press.
  destruct (generate_run svc (press_text p) (press_tone p) (press_accent p) s)
    as (s' & E & [H | [r H]]); rewrite E; simpl; rewrite H.
  - reflexivity.
  - apply suffix_cons_r. reflexivity.
Qed.

Lemma run_presses_app (ps qs : list Press) (s : State svc) :
  run_presses (ps ++ qs) s = run_presses qs (run_presses ps s).
Proof. apply fold_left_app. Qed.

Lemma run_presses_suffix (ps : list Press) (s : State svc) :
  history s `suffix_of` history (run_presses ps s).
Proof.
  revert s. induction ps as [|p ps IH]; intros s; simpl.
  - reflexivity.
  - etransitivity; [apply (run_press_suffix p) | apply IH].
Qed.

Lemma rev_is_reverse {A} (l : list A) : rev l = reverse l.
Proof. unfold reverse. apply rev_alt. Qed.

Lemma run_records_length (ps : list Press) (s : State svc) :
  length (run_records ps s) = length ps.
Proof. revert s. induction ps as [|p ps IH]; intros s; simpl; [|rewrite IH]; reflexivity. Qed.

(** Presses that all succeed pile their records up, the latest first. *)
Lemma run_presses_records (ps : list Press) (s : State svc) (rs : list NarrationRecord) :
  run_records ps s = List.map Some rs ->
  history (run_presses ps s) = rev rs ++ history s.
Proof.
  revert s rs. induction ps as [|p ps IH]; intros s [|r rs]; simpl; try discriminate.
  - reflexivity.
  - intros [= Hr Hrs]. rewrite (IH _ _ Hrs), (run_record_success _ _ _ Hr).
    rewrite <- app_assoc. reflexivity.
Qed.

End Sessions.

(** C2. After [N] presses that all succeed, with records [rs] in the order
    of the presses, the history is [rs] reversed before the history of the
    start: the record of run [k] (counted from 0) is at index [N - 1 - k], so
    index 0 holds the record of the last run and index [N - 1] that of the
    first. And whatever presses follow, successful or not, the history
    reached stays as it is at the end of the later history: no record is
    removed or changed. *)
Theorem history_is_a_stack (svc : Services) (ps : list Press) (s : State svc) :
  (forall rs,
      run_records ps s = List.map Some rs ->
      history (run_presses ps s) = rev rs ++ history s
      /\ (forall k r, rs !! k = Some r ->
                      history (run_presses ps s) !! (length ps - 1 - k) = Some r)
      /\ (rs <> [] ->
          history (run_presses ps s) !! 0 = last rs
          /\ history (run_presses ps s) !! (length ps - 1) = head rs))
  /\ (forall more,
         history (run_presses ps s) `suffix_of` history (run_presses (ps ++ more) s)).
Proof.
  split.
  - intros rs Hrs.
    pose proof (run_presses_records svc ps s rs Hrs) as Hh.
    assert (Hlen : length ps = length rs).
    { rewrite <- (run_records_length svc ps s), Hrs, length_map. reflexivity. }
    assert (Hk : forall k r, rs !! k = Some r ->
                history (run_presses ps s) !! (length ps - 1 - k) = Some r).
    { intros k r Hkr. pose proof (lookup_lt_Some _ _ _ Hkr) as Hlt.
      rewrite Hh, rev_is_reverse, lookup_app_l by (rewrite length_reverse; lia).
      rewrite reverse_lookup by lia.
      rewrite <- Hkr. f_equal. lia. }
    split; [exact Hh | split; [exact Hk|]].
    intros Hne. split.
    + destruct rs as [|r0 rs'] using rev_ind; [congruence|].
      rewrite last_snoc.
      replace 0 with (length ps - 1 - length rs').
      * apply Hk. rewrite lookup_app_r, Nat.sub_diag by lia. reflexivity.
      * rewrite Hlen, length_app. simpl. lia.
    + destruct rs as [|r0 rs']; [congruence|]. simpl.
      replace (length ps - 1) with (length ps - 1 - 0) by lia.
      apply Hk. reflexivity.
  - intros more. rewrite run_presses_app. apply run_presses_suffix.
Qed.

Lemma history_is_a_stack_witness :
  history (run_presses [hello; again] (new_session (0 : World good))) !! 0
  = Some {| original := str " Second take ";
            rewritten := str "A calm morning.";
            tone := str "Suspenseful";
            accent := str "UK English";
            audio := mp3 |}
  /\ history (run_presses [hello; again] (new_session (0 : World good))) !! 1
     = Some {| original := str "Hello world";
               rewritten := str "A calm morning.";
               tone := str "Neutral";
               accent := str "US English";
               audio := mp3 |}.
Proof.
  destruct (history_is_a_stack good [hello; again] (new_session (0 : World good)))
    as [H _].
  destruct (H [ {| original := str "Hello world";
                   rewritten := str "A calm morning.";
                   tone := str "Neutral";
                   accent := str "US English";
                   audio := mp3 |};
                {| original := str " Second take ";
                   rewritten := str "A calm morning.";
                   tone := str "Suspenseful";
                   accent := str "UK English";
                   audio := mp3 |} ])
    as (_ & _ & Hends).
  - vm_compute. reflexivity.
  - destruct Hends as [H0 H1]; [discriminate|].
    split; [exact H0 | exact H1].
Defined.

(** ** The accent table and the synthesis adapter *)

Lemma tld_map_lookup (k : pystr) :
  tld_map !! k =
  if decide (str "US English" = k) then Some (str "com")
  else if decide (str "UK English" = k) then Some (str "co.uk")
  else if decide (str "Australian English" = k) then Some (str "com.au")
  else None.
Proof.
  unfold tld_map. rewrite !lookup_insert, lookup_empty. reflexivity.
Qed.

Lemma tld_map_unknown (accent : pystr) :
  accent ∉ accent_options -> tld_map !! accent = None.
Proof.
  intros Hnot. rewrite tld_map_lookup.
  repeat case_decide; try reflexivity; subst; exfalso; apply Hnot;
    unfold accent_options; set_solver.
Qed.

(** Writing chunks at the end of a buffer appends them. *)
Lemma write_chunks (chunks : list pybytes) (fp : BytesIO.t) :
  BytesIO.pos fp = length (BytesIO.buf fp) ->
  fold_left (fun fp b => BytesIO.write b fp) chunks fp
  = BytesIO.mk (BytesIO.buf fp ++ concat chunks)
               (length (BytesIO.buf fp ++ concat chunks)).
Proof.
  revert fp. induction chunks as [|b chunks IH]; intros [buf pos]; simpl; intros ->.
  - rewrite app_nil_r. reflexivity.
  - rewrite IH; unfold BytesIO.write; simpl;
      rewrite Nat.sub_diag, take_ge, drop_ge by lia; simpl; rewrite app_nil_r.
    + rewrite <- app_assoc. reflexivity.
    + rewrite length_app. reflexivity.
Qed.

Section Synthesis.

Variable svc : Services.

(** The adapter on an accent of the table. *)
Lemma convert_known (text accent tld : pystr) (s : State svc) :
  tld_map !! accent = Some tld ->
  convert_text_to_speech svc text accent s =
  match gtts_new svc text (str "en") tld false (world s) with
  | (Ret tts, w1) =>
      match gtts_stream svc tts w1 with
      | (Ret chunks, w2) =>
          (Ret (Some (concat chunks)),
           {| history := history s;
              trace := trace s ++ [EnterSynth text accent;
                                   GttsNew text (str "en") tld false; GttsWrite];
              world := w2 |})
      | (Raise e, w2) =>
          (Ret None,
           {| history := history s;
              trace := trace s ++ [EnterSynth text accent;
                                   GttsNew text (str "en") tld false; GttsWrite;
                                   StError (str "Error during audio generation: ") e];
              world := w2 |})
      end
  | (Raise e, w1) =>
      (Ret None,
       {| history := history s;
          trace := trace s ++ [EnterSynth text accent;
                               GttsNew text (str "en") tld false;
                               StError (str "Error during audio generation: ") e];
          world := w1 |})
  end.
Proof.
  intros Htld. destruct s as [h tr w].
  unfold convert_text_to_speech, bind, try_except, emit, call, ret, dict_getitem.
  simpl. rewrite Htld. simpl.
  destruct (gtts_new svc text (str "en") tld false w) as [[t|e] w1]; simpl.
  - destruct (gtts_stream svc t w1) as [[chunks|e] w2]; simpl.
    + rewrite (write_chunks chunks BytesIO.new eq_refl). simpl.
      rewrite <- !app_assoc. reflexivity.
    + rewrite <- !app_assoc. reflexivity.
  - rewrite <- !app_assoc. reflexivity.
Qed.

(** The adapter on an accent that is not in the table. *)
Lemma convert_unknown (text accent : pystr) (s : State svc) :
  tld_map !! accent = None ->
  convert_text_to_speech svc text accent s =
  (Ret None,
   {| history := history s;
      trace := trace s ++ [EnterSynth text accent;
                           StError (str "Error during audio generation: ")
                                   (KeyError accent)];
      world := world s |}).
Proof.
  intros Htld. destruct s as [h tr w].
  unfold convert_text_to_speech, bind, try_except, emit, call, ret, dict_getitem.
  simpl. rewrite Htld. simpl. rewrite <- !app_assoc. reflexivity.
Qed.

End Synthesis.

(** C6. The table of the synthesis adapter holds exactly the three entries
    US English -> com, UK English -> co.uk, Australian English -> com.au.
    For each of them the adapter is what the call of gTTS with the text, the
    language "en", that locale and [slow=False] makes it: its result, its
    events and the world it leaves are those of that one call (and of the
    writing of the audio when the call returns an object); no other locale,
    language or rate reaches the service. *)
Theorem accent_locale_table (svc : Services) :
  (forall k v,
      tld_map !! k = Some v <->
      (k, v) ∈ [(str "US English", str "com");
                (str "UK English", str "co.uk");
                (str "Australian English", str "com.au")])
  /\ (forall text accent tld (s : State svc),
         (accent, tld) ∈ [(str "US English", str "com");
                          (str "UK English", str "co.uk");
                          (str "Australian English", str "com.au")] ->
         convert_text_to_speech svc text accent s =
         match gtts_new svc text (str "en") tld false (world s) with
         | (Ret tts, w1) =>
             match gtts_stream svc tts w1 with
             | (Ret chunks, w2) =>
                 (Ret (Some (concat chunks)),
                  {| history := history s;
                     trace := trace s ++
                       [EnterSynth text accent;
                        GttsNew text (str "en") tld false; GttsWrite];
                     world := w2 |})
             | (Raise e, w2) =>
                 (Ret None,
                  {| history := history s;
                     trace := trace s ++
                       [EnterSynth text accent;
                        GttsNew text (str "en") tld false; GttsWrite;
                        StError (str "Error during audio generation: ") e];
                     world := w2 |})
             end
         | (Raise e, w1) =>
             (Ret None,
              {| history := history s;
                 trace := trace s ++
                   [EnterSynth text accent;
                    GttsNew text (str "en") tld false;
                    StError (str "Error during audio generation: ") e];
                 world := w1 |})
         end).
Proof.
  assert (Htable : forall k v,
             tld_map !! k = Some v <->
             (k, v) ∈ [(str "US English", str "com");
                       (str "UK English", str "co.uk");
                       (str "Australian English", str "com.au")]).
  { intros k v. rewrite tld_map_lookup. rewrite !elem_of_cons, elem_of_nil.
    split.
    - repeat case_decide; intros [= <-]; subst; auto.
    - intros [[= -> ->] | [[= -> ->] | [[= -> ->] | []]]]; reflexivity. }
  split; [exact Htable|].
  intros text accent tld s Hin. apply Htable in Hin.
  exact (convert_known svc text accent tld s Hin).
Qed.

Lemma accent_locale_table_witness :
  convert_text_to_speech good (str "Good day") (str "Australian English")
    (new_session (0 : World good))
  = (Ret (Some mp3),
     Build_State good []
       [EnterSynth (str "Good day") (str "Australian English");
        GttsNew (str "Good day") (str "en") (str "com.au") false; GttsWrite]
       2).
Proof.
  destruct (accent_locale_table good) as [_ H].
  apply (H (str "Good day") (str "Australian English") (str "com.au")
           (new_session (0 : World good))).
  vm_compute. set_solver.
Defined.

(** C7. When the history has a head, the download button of the page
    suggests the file name "EchoVerse_" + tone + "_" + accent + ".mp3" of
    that record; for the tone Suspenseful and the accent UK English this is
    "EchoVerse_Suspenseful_UK English.mp3". *)
Theorem download_name_of_head (h : list NarrationRecord) (latest : NarrationRecord) :
  h !! 0 = Some latest ->
  file_name <$> latest_download h
  = Some (str "EchoVerse_" ++ tone latest ++ str "_" ++ accent latest ++ str ".mp3")
  /\ (tone latest = str "Suspenseful" ->
      accent latest = str "UK English" ->
      file_name <$> latest_download h
      = Some (str "EchoVerse_Suspenseful_UK English.mp3")).
Proof.
  intros Hhead. unfold latest_download.
  destruct h as [|r h]; [discriminate|]. simpl in *.
  injection Hhead as ->. unfold download_file_name. split; [reflexivity|].
  intros -> ->. reflexivity.
Qed.

Lemma download_name_of_head_witness :
  file_name <$> latest_download
    [ {| original := str " Second take ";
         rewritten := str "A calm morning.";
         tone := str "Suspenseful";
         accent := str "UK English";
         audio := mp3 |} ]
  = Some (str "EchoVerse_Suspenseful_UK English.mp3").
Proof.
  apply (download_name_of_head
           [ {| original := str " Second take ";
                rewritten := str "A calm morning.";
                tone := str "Suspenseful";
                accent := str "UK English";
                audio := mp3 |} ]
           {| original := str " Second take ";
              rewritten := str "A calm morning.";
              tone := str "Suspenseful";
              accent := str "UK English";
              audio := mp3 |}); reflexivity.
Defined.

(** ** The rewrite adapter *)

Section Rewriting.

Variable svc : Services.

(** The adapter when the pipeline loads. *)
Lemma rewrite_loaded (text tone : pystr) (s : State svc) p w1 :
  hf_pipeline svc (world s) = (Ret p, w1) ->
  rewrite_text_with_tone svc text tone s =
  match hf_generate svc p (rewrite_prompt svc text tone) 300 4 true w1 with
  | (Ret result, w2) =>
      match result with
      | first :: _ =>
          match first !! str "generated_text" with
          | Some generated_text =>
              (Ret (Some (strip generated_text)),
               {| history := history s;
                  trace := trace s ++
                    [EnterRewrite text tone; HfPipeline;
                     HfGenerate (rewrite_prompt svc text tone) 300 4 true];
                  world := w2 |})
          | None =>
              (Ret None,
               {| history := history s;
                  trace := trace s ++
                    [EnterRewrite text tone; HfPipeline;
                     HfGenerate (rewrite_prompt svc text tone) 300 4 true;
                     StError (str "Error during tone rewriting: ")
                             (KeyError (str "generated_text"))];
                  world := w2 |})
          end
      | [] =>
          (Ret None,
           {| history := history s;
              trace := trace s ++
                [EnterRewrite text tone; HfPipeline;
                 HfGenerate (rewrite_prompt svc text tone) 300 4 true;
                 StError (str "Error during tone rewriting: ") IndexError];
              world := w2 |})
      end
  | (Raise e, w2) =>
      (Ret None,
       {| history := history s;
          trace := trace s ++
            [EnterRewrite text tone; HfPipeline;
             HfGenerate (rewrite_prompt svc text tone) 300 4 true;
             StError (str "Error during tone rewriting: ") e];
          world := w2 |})
  end.
Proof.
  intros Hload. destruct s as [h tr w]. simpl in Hload.
  unfold rewrite_text_with_tone, load_rewriting_model, bind, try_except, emit,
    call, ret, dict_getitem.
  simpl. rewrite Hload. simpl.
  destruct (hf_generate svc p (rewrite_prompt svc text tone) 300 4 true w1)
    as [[[|d ds]|e] w2]; simpl; try (rewrite <- !app_assoc; reflexivity).
  destruct (d !! str "generated_text"); simpl; rewrite <- !app_assoc; reflexivity.
Qed.

(** The adapter when the model answers with a generated text. *)
Lemma rewrite_generated (text tone : pystr) (s : State svc) p w1 d ds w2 g :
  hf_pipeline svc (world s) = (Ret p, w1) ->
  hf_generate svc p (rewrite_prompt svc text tone) 300 4 true w1 = (Ret (d :: ds), w2) ->
  d !! str "generated_text" = Some g ->
  rewrite_text_with_tone svc text tone s =
  (Ret (Some (strip g)),
   {| history := history s;
      trace := trace s ++
        [EnterRewrite text tone; HfPipeline;
         HfGenerate (rewrite_prompt svc text tone) 300 4 true];
      world := w2 |}).
Proof.
  intros Hload Hgen Hd. rewrite (rewrite_loaded text tone s p w1 Hload), Hgen, Hd.
  reflexivity.
Qed.

End Rewriting.

(** C8. For every text and each of the three tones: the prompt is the fixed
    instruction with the tone in lower case ("neutral", "suspenseful" or
    "inspiring") and the text, both of which it contains (for "Hello world"
    and Neutral: "neutral" and "Hello world"); once the pipeline is loaded,
    the adapter calls the model once, with that prompt, [max_length=300],
    [num_beams=4] and [early_stopping=True]; and when the model answers with
    a generated text, the adapter returns that text without the white space
    at its two ends. *)
Theorem rewrite_adapter_contract (svc : Services) (text tone : pystr) (s : State svc) :
  tone ∈ tone_options ->
  rewrite_prompt svc text tone
  = str "Rewrite the following text in a " ++ List.map ascii_lower tone
      ++ str " tone: " ++ text
  /\ List.map ascii_lower tone ∈ [str "neutral"; str "suspenseful"; str "inspiring"]
  /\ contains (List.map ascii_lower tone) (rewrite_prompt svc text tone) = true
  /\ contains text (rewrite_prompt svc text tone) = true
  /\ contains (str "neutral")
       (rewrite_prompt svc (str "Hello world") (str "Neutral")) = true
  /\ contains (str "Hello world")
       (rewrite_prompt svc (str "Hello world") (str "Neutral")) = true
  /\ (forall p w1,
         hf_pipeline svc (world s) = (Ret p, w1) ->
         exists r evs w2,
           rewrite_text_with_tone svc text tone s
           = (Ret r,
              {| history := history s;
                 trace := trace s ++ EnterRewrite text tone :: HfPipeline
                            :: HfGenerate (rewrite_prompt svc text tone) 300 4 true
                            :: evs;
                 world := w2 |})
           /\ Forall (fun ev => match ev with
                                | HfGenerate _ _ _ _ => False
                                | _ => True
                                end) evs)
  /\ (forall p w1 d ds w2 g,
         hf_pipeline svc (world s) = (Ret p, w1) ->
         hf_generate svc p (rewrite_prompt svc text tone) 300 4 true w1
         = (Ret (d :: ds), w2) ->
         d !! str "generated_text" = Some g ->
         rewrite_text_with_tone svc text tone s
         = (Ret (Some (strip g)),
            {| history := history s;
               trace := trace s ++
                 [EnterRewrite text tone; HfPipeline;
                  HfGenerate (rewrite_prompt svc text tone) 300 4 true];
               world := w2 |})
         /\ (exists pre post,
                g = pre ++ strip g ++ post
                /\ forallb isspace pre = true /\ forallb isspace post = true)
         /\ match strip g with c :: _ => isspace c = false | [] => True end
         /\ match rev (strip g) with c :: _ => isspace c = false | [] => True end).
Proof.
  intros Htone.
  assert (Hprompt : rewrite_prompt svc text tone
                    = str "Rewrite the following text in a "
                        ++ List.map ascii_lower tone ++ str " tone: " ++ text).
  { unfold tone_options in Htone. rewrite !elem_of_cons, elem_of_nil in Htone.
    destruct Htone as [-> | [-> | [-> | []]]]; reflexivity. }
  split; [exact Hprompt|].
  split.
  { unfold tone_options in Htone. rewrite !elem_of_cons, elem_of_nil in Htone.
    destruct Htone as [-> | [-> | [-> | []]]]; vm_compute; set_solver. }
  split; [rewrite Hprompt; apply contains_app|].
  split.
  { rewrite Hprompt.
    rewrite (app_assoc (List.map ascii_lower tone)), app_assoc.
    rewrite <- (app_nil_r text) at 2. apply contains_app. }
  split; [reflexivity|].
  split; [reflexivity|].
  split.
  - intros p w1 Hload. rewrite (rewrite_loaded svc text tone s p w1 Hload).
    destruct (hf_generate svc p (rewrite_prompt svc text tone) 300 4 true w1)
      as [[[|d ds]|e] w2];
      [| destruct (d !! str "generated_text") |];
      (eexists _, _, _; split; [reflexivity | repeat constructor]).
  - intros p w1 d ds w2 g Hload Hgen Hd.
    split; [exact (rewrite_generated svc text tone s p w1 d ds w2 g Hload Hgen Hd)|].
    exact (strip_spec g).
Qed.

Lemma rewrite_adapter_contract_witness :
  rewrite_text_with_tone good (str "Hello world") (str "Neutral")
    (new_session (0 : World good))
  = (Ret (Some (str "A calm morning.")),
     Build_State good []
       [EnterRewrite (str "Hello world") (str "Neutral"); HfPipeline;
        HfGenerate (str "Rewrite the following text in a neutral tone: Hello world")
                   300 4 true]
       2).
Proof.
  destruct (rewrite_adapter_contract good (str "Hello world") (str "Neutral")
              (new_session (0 : World good)))
    as (_ & _ & _ & _ & _ & _ & _ & H).
  - vm_compute. set_solver.
  - destruct (H tt (1 : World good)
                ({[ str "generated_text" := str "  A calm morning. " ]}) []
                (2 : World good) (str "  A calm morning. ")) as [E _].
    + reflexivity.
    + reflexivity.
    + vm_compute. reflexivity.
    + exact E.
Defined.

(** C9. When the pipeline loads and the model answers with a generated text
    that is empty once trimmed, the rewrite adapter returns the empty string;
    the handler takes it as no result: its run adds no event of the synthesis
    adapter and leaves the history as it was. *)
Theorem blank_rewrite_stops_run (svc : Services) (text tone accent : pystr)
    (s : State svc) p w1 d ds w2 g :
  hf_pipeline svc (world s) = (Ret p, w1) ->
  hf_generate svc p (rewrite_prompt svc text tone) 300 4 true w1 = (Ret (d :: ds), w2) ->
  d !! str "generated_text" = Some g ->
  strip g = [] ->
  adapter_returns (rewrite_text_with_tone svc text tone) (world s) (Some []) w2
  /\ exists evs s',
       generate_audiobook svc text tone accent s = (Ret tt, s')
       /\ history s' = history s
       /\ trace s' = trace s ++ evs
       /\ Forall (fun ev => is_synth_event ev = false) evs.
Proof.
  intros Hload Hgen Hd Hblank.
  assert (Hret : adapter_returns (rewrite_text_with_tone svc text tone)
                   (world s) (Some []) w2).
  { exists s. eexists. split; [reflexivity|].
    rewrite (rewrite_generated svc text tone s p w1 d ds w2 g Hload Hgen Hd), Hblank.
    split; reflexivity. }
  split; [exact Hret|].
  exact (generate_rewrite_unusable svc text tone accent (Some []) s w2 Hret eq_refl).
Qed.

Lemma blank_rewrite_stops_run_witness :
  adapter_returns
    (rewrite_text_with_tone blank_answer (str "Hello world") (str "Neutral"))
    (0 : World blank_answer) (Some []) (2 : World blank_answer)
  /\ exists evs s',
       generate_audiobook blank_answer (str "Hello world") (str "Neutral")
         (str "US English") (new_session (0 : World blank_answer)) = (Ret tt, s')
       /\ history s' = []
       /\ trace s' = [] ++ evs
       /\ Forall (fun ev => is_synth_event ev = false) evs.
Proof.
  apply (blank_rewrite_stops_run blank_answer (str "Hello world") (str "Neutral")
           (str "US English") (new_session (0 : World blank_answer))
           tt (1 : World blank_answer)
           ({[ str "generated_text" := str "   " ]}) []
           (2 : World blank_answer) (str "   ")).
  - reflexivity.
  - reflexivity.
  - vm_compute. reflexivity.
  - vm_compute. reflexivity.
Defined.

(** C10. For an accent that is none of the three labels, whatever the text,
    the synthesis adapter returns [None] without raising: the one thing it
    does after being entered is [st.error] with the [KeyError] of the lookup;
    gTTS is not called and the world is unchanged. A press with such an
    accent returns and leaves the history as it was. *)
Theorem unknown_accent_is_caught (svc : Services) (accent : pystr) :
  accent ∉ accent_options ->
  (forall text (s : State svc),
      convert_text_to_speech svc text accent s
      = (Ret None,
         {| history := history s;
            trace := trace s ++
              [EnterSynth text accent;
               StError (str "Error during audio generation: ") (KeyError accent)];
            world := world s |}))
  /\ (forall text tone (s : State svc),
         exists s',
           generate_audiobook svc text tone accent s = (Ret tt, s')
           /\ history s' = history s).
Proof.
  intros Hnot. pose proof (tld_map_unknown accent Hnot) as Htld.
  split.
  - intros text s. exact (convert_unknown svc text accent s Htld).
  - intros text tone s.
    unfold generate_audiobook. destruct (truthy (strip text)); cbn [negb].
    + rewrite (bind_ret_eq _ _ _ _ _ (emit_eq svc _ s)).
      match goal with |- context [bind (rewrite_text_with_tone svc ?t ?n) _ ?st] =>
        destruct (rewrite_run svc t n st) as (r & evs & w' & E & _)
      end.
      rewrite (bind_ret_eq _ _ _ _ _ E). clear E.
      destruct r as [[|c rw]|]; try (eexists; split; reflexivity).
      rewrite (bind_ret_eq _ _ _ _ _ (emit_eq svc _ _)).
      rewrite (bind_ret_eq _ _ _ _ _ (convert_unknown svc (c :: rw) accent _ Htld)).
      eexists; split; reflexivity.
    + eexists; split; reflexivity.
Qed.

Lemma unknown_accent_is_caught_witness :
  convert_text_to_speech good (str "A calm morning.") (str "Texan")
    (new_session (0 : World good))
  = (Ret None,
     Build_State good []
       [EnterSynth (str "A calm morning.") (str "Texan");
        StError (str "Error during audio generation: ") (KeyError (str "Texan"))]
       0).
Proof.
  destruct (unknown_accent_is_caught good (str "Texan")) as [H _].
  - unfold accent_options. rewrite !not_elem_of_cons.
    repeat split; try discriminate. apply not_elem_of_nil.
  - exact (H (str "A calm morning.") (new_session (0 : World good))).
Defined.

(** * Further properties *)

(** ** Trimming *)

Lemma lstrip_fixed (s : pystr) :
  match s with c :: _ => isspace c = false | [] => True end -> lstrip s = s.
Proof. destruct s as [|c s]; simpl; [reflexivity|]. intros ->. reflexivity. Qed.

Lemma strip_idempotent (s : pystr) : strip (strip s) = strip s.
Proof.
  destruct (strip_spec s) as (_ & Hhead & Hlast).
  unfold strip at 1. rewrite (lstrip_fixed _ Hhead).
  unfold rstrip. rewrite (lstrip_fixed _ Hlast). apply rev_involutive.
Qed.

Lemma lstrip_blank (s : pystr) : lstrip s = [] <-> forallb isspace s = true.
Proof.
  induction s as [|c s IH]; simpl; [tauto|].
  destruct (isspace c); simpl; [exact IH|]. split; discriminate.
Qed.

(** Trimming leaves nothing exactly when the text is white space only. *)
Lemma strip_blank (s : pystr) : strip s = [] <-> forallb isspace s = true.
Proof.
  split.
  - intros H. destruct (strip_spec s) as ((pre & post & Hs & Hpre & Hpost) & _).
    rewrite H in Hs. simpl in Hs. rewrite Hs, forallb_app, Hpre, Hpost. reflexivity.
  - intros H. unfold strip. apply lstrip_blank in H. rewrite H. reflexivity.
Qed.

(** ** The outcomes of the adapters *)

Section Outcomes.

Variable svc : Services.

(** All the ways the rewrite adapter can go. *)
Lemma rewrite_cases (text tone : pystr) (w : World svc) :
  exists r evs w',
    isolated (rewrite_text_with_tone svc text tone) w
    = (Ret r, EnterRewrite text tone :: HfPipeline :: evs, w')
    /\ ((r = None
         /\ exists e,
              evs = [StError rewriting_error e]
              \/ evs = [HfGenerate (rewrite_prompt svc text tone) 300 4 true;
                        StError rewriting_error e])
        \/ (exists g,
               r = Some (strip g)
               /\ evs = [HfGenerate (rewrite_prompt svc text tone) 300 4 true])).
Proof.
  unfold isolated, rewrite_text_with_tone, load_rewriting_model, bind, try_except,
    emit, call, ret, dict_getitem.
  simpl.
  destruct (hf_pipeline svc w) as [[p|e] w1]; simpl.
  - destruct (hf_generate svc p (rewrite_prompt svc text tone) 300 4 true w1)
      as [[[|d ds]|e] w2]; simpl.
    + eexists _, _, _. split; [reflexivity|]. left. split; [reflexivity|].
      eexists. right. reflexivity.
    + destruct (d !! str "generated_text") as [g|]; simpl.
      * eexists _, _, _. split; [reflexivity|]. right. exists g. split; reflexivity.
      * eexists _, _, _. split; [reflexivity|]. left. split; [reflexivity|].
        eexists. right. reflexivity.
    + eexists _, _, _. split; [reflexivity|]. left. split; [reflexivity|].
      eexists. right. reflexivity.
  - eexists _, _, _. split; [reflexivity|]. left. split; [reflexivity|].
    eexists. left. reflexivity.
Qed.

(** All the ways the synthesis adapter can go. *)
Lemma convert_cases (text accent : pystr) (w : World svc) :
  exists r evs w',
    isolated (convert_text_to_speech svc text accent) w
    = (Ret r, EnterSynth text accent :: evs, w')
    /\ ((r = None /\ tld_map !! accent = None /\ w' = w
         /\ evs = [StError audio_error (KeyError accent)])
        \/ (exists tld e,
               r = None /\ tld_map !! accent = Some tld
               /\ (evs = [GttsNew text (str "en") tld false; StError audio_error e]
                   \/ evs = [GttsNew text (str "en") tld false; GttsWrite;
                             StError audio_error e]))
        \/ (exists tld au,
               r = Some au /\ tld_map !! accent = Some tld
               /\ evs = [GttsNew text (str "en") tld false; GttsWrite])).
Proof.
  unfold isolated.
  destruct (tld_map !! accent) as [tld|] eqn:Htld.
  - rewrite (convert_known svc text accent tld _ Htld). simpl.
    destruct (gtts_new svc text (str "en") tld false w) as [[t|e] w1].
    + destruct (gtts_stream svc t w1) as [[chunks|e] w2]; simpl.
      * eexists _, _, _. split; [reflexivity|]. right. right.
        eexists _, _. repeat split.
      * eexists _, _, _. split; [reflexivity|]. right. left.
        exists tld, e. split; [reflexivity|]. split; [reflexivity|]. right. reflexivity.
    + simpl. eexists _, _, _. split; [reflexivity|]. right. left.
      exists tld, e. split; [reflexivity|]. split; [reflexivity|]. left. reflexivity.
  - rewrite (convert_unknown svc text accent _ Htld). simpl.
    eexists _, _, _. split; [reflexivity|]. left. repeat split.
Qed.

(** What a local computation does in a state, from what it does on its own. *)
Lemma local_run {A} (m : M svc A) (s : State svc) r evs w' :
  local m -> isolated m (world s) = (r, evs, w') ->
  m s = (r, {| history := history s; trace := trace s ++ evs; world := w' |}).
Proof. intros Hm E. rewrite (Hm s), E. reflexivity. Qed.

Lemma isolated_returns {A} (m : M svc A) (w : World svc) r evs w' :
  isolated m w = (Ret r, evs, w') -> adapter_returns m w r w'.
Proof.
  unfold isolated. intros E. exists (new_session w).
  destruct (m (new_session w)) as [r' s'] eqn:Em. injection E as -> <- <-.
  exists s'. split; [reflexivity | split; reflexivity].
Qed.

End Outcomes.

(** ** The outcomes of a press *)

Section PressOutcomes.

Variable svc : Services.

(** All the ways a press can go, from what the adapters do in the world. *)
Lemma generate_cases (text tone accent : pystr) (s : State svc) :
  exists evs s',
    generate_audiobook svc text tone accent s = (Ret tt, s')
    /\ trace s' = trace s ++ evs
    /\ ((strip text = [] /\ evs = [warning_no_text]
         /\ history s' = history s /\ world s' = world s)
        \/ (strip text <> []
            /\ exists r revs w1,
                isolated (rewrite_text_with_tone svc text tone) (world s)
                = (Ret r, revs, w1)
                /\ ((truthy_opt r = false /\ evs = spinner_rewriting :: revs
                     /\ history s' = history s /\ world s' = w1)
                    \/ (exists rw a aevs w2,
                           r = Some rw /\ rw <> []
                           /\ isolated (convert_text_to_speech svc rw accent) w1
                              = (Ret a, aevs, w2)
                           /\ world s' = w2
                           /\ ((truthy_opt a = false
                                /\ evs = spinner_rewriting :: revs
                                           ++ spinner_synthesizing :: aevs
                                /\ history s' = history s)
                               \/ (exists au,
                                      a = Some au /\ au <> []
                                      /\ evs = spinner_rewriting :: revs
                                                 ++ spinner_synthesizing :: aevs
                                                 ++ [success_generated]
                                      /\ history s'
                                         = {| original := text; rewritten := rw;
                                              tone := tone; accent := accent;
                                              audio := au |} :: history s)))))).
Proof.
  unfold generate_audiobook.
  destruct (strip text) as [|c0 t0] eqn:Htext; cbn [truthy negb].
  - eexists _, _. split; [reflexivity|]. split; [reflexivity|]. left.
    repeat split.
  - rewrite (bind_ret_eq _ _ _ _ _ (emit_eq svc _ s)).
    destruct (rewrite_cases svc text tone (world s)) as (r & revs & w1 & Er & _).
    match goal with |- context [bind (rewrite_text_with_tone svc _ _) _ ?st] =>
      rewrite (bind_ret_eq _ _ _ _ _
                 (local_run svc _ st _ _ _ (local_rewrite svc text tone) Er))
    end.
    destruct r as [[|c rw]|].
    + eexists _, _. split; [reflexivity|]. simpl.
      split; [rewrite <- app_assoc; reflexivity|]. right. split; [discriminate|].
      eexists _, _, _. split; [exact Er|]. left. repeat split.
    + rewrite (bind_ret_eq _ _ _ _ _ (emit_eq svc _ _)).
      destruct (convert_cases svc (c :: rw) accent w1) as (a & aevs & w2 & Ea & _).
      match goal with |- context [bind (convert_text_to_speech svc _ _) _ ?st] =>
        rewrite (bind_ret_eq _ _ _ _ _
                   (local_run svc _ st _ _ _ (local_convert svc (c :: rw) accent) Ea))
      end.
      destruct a as [[|b au]|].
      * eexists _, _. split; [reflexivity|]. simpl.
        split; [rewrite <- !app_assoc; reflexivity|]. right. split; [discriminate|].
        eexists _, _, _. split; [exact Er|]. right.
        eexists _, _, _, _. split; [reflexivity|]. split; [discriminate|].
        split; [exact Ea|]. split; [reflexivity|]. left. repeat split.
      * rewrite (bind_ret_eq _ _ _ _ _ (emit_eq svc _ _)).
        eexists _, _. split; [reflexivity|]. simpl.
        split; [rewrite <- !app_assoc; reflexivity|].
        right. split; [discriminate|].
        eexists _, _, _. split; [exact Er|]. right.
        eexists _, _, _, _. split; [reflexivity|]. split; [discriminate|].
        split; [exact Ea|]. split; [reflexivity|]. right.
        eexists. split; [reflexivity|]. split; [discriminate|]. split; reflexivity.
      * eexists _, _. split; [reflexivity|]. simpl.
        split; [rewrite <- !app_assoc; reflexivity|]. right. split; [discriminate|].
        eexists _, _, _. split; [exact Er|]. right.
        eexists _, _, _, _. split; [reflexivity|]. split; [discriminate|].
        split; [exact Ea|]. split; [reflexivity|]. left. repeat split.
    + eexists _, _. split; [reflexivity|]. simpl.
      split; [rewrite <- app_assoc; reflexivity|]. right. split; [discriminate|].
      eexists _, _, _. split; [exact Er|]. left. repeat split.
Qed.

End PressOutcomes.

(** ** The adapters, whatever the services do *)

Section AdapterFacts.

Variable svc : Services.

Lemma accent_of_table (accent tld : pystr) :
  tld_map !! accent = Some tld -> accent ∈ accent_options.
Proof.
  intros Htld. destruct (decide (accent ∈ accent_options)) as [Hin|Hnot]; [exact Hin|].
  rewrite (tld_map_unknown accent Hnot) in Htld. discriminate.
Qed.

(** A text the rewrite adapter returns is trimmed. *)
Lemma rewrite_returns_trimmed (text tone t : pystr) (s s' : State svc) :
  rewrite_text_with_tone svc text tone s = (Ret (Some t), s') -> strip t = t.
Proof.
  intros E.
  destruct (rewrite_cases svc text tone (world s))
    as (r & evs & w' & Er & [[-> _] | (g & -> & _)]);
    rewrite (local_run svc _ s _ _ _ (local_rewrite svc text tone) Er) in E;
    [discriminate|].
  injection E as <- _. apply strip_idempotent.
Qed.

(** Audio comes only for an accent of the table. *)
Lemma convert_returns_known (text accent : pystr) (au : pybytes) (s s' : State svc) :
  convert_text_to_speech svc text accent s = (Ret (Some au), s') ->
  accent ∈ accent_options.
Proof.
  intros E.
  destruct (convert_cases svc text accent (world s))
    as (r & evs & w' & Er & [(-> & _) | [(tld & e & -> & _) | (tld & au' & -> & Htld & _)]]);
    rewrite (local_run svc _ s _ _ _ (local_convert svc text accent) Er) in E;
    try discriminate.
  exact (accent_of_table accent tld Htld).
Qed.

End AdapterFacts.

(** The rewrite adapter when the pipeline cannot be loaded. *)
Lemma rewrite_not_loaded (svc : Services) (text tone : pystr) (s : State svc) e w1 :
  hf_pipeline svc (world s) = (Raise e, w1) ->
  rewrite_text_with_tone svc text tone s
  = (Ret None,
     {| history := history s;
        trace := trace s ++
          [EnterRewrite text tone; HfPipeline; StError rewriting_error e];
        world := w1 |}).
Proof.
  intros Hload. destruct s as [h tr w]. simpl in Hload.
  unfold rewrite_text_with_tone, load_rewriting_model, bind, try_except, emit,
    call, ret.
  simpl. rewrite Hload. simpl. rewrite <- !app_assoc. reflexivity.
Qed.

(** X1. What the rewrite adapter returns tells what it showed: when it
    returns, it has kept the history and only added events; when the value
    is [None] the last thing it did was to show its error message, and when
    the value is a text it showed no message and the text is trimmed. An
    [Exception] raised by the loading of the pipeline is caught: it is shown
    with [st.error], [None] is returned and the model is not called. *)
Theorem rewrite_adapter_outcome (svc : Services) (text tone : pystr)
    (s : State svc) :
  (forall r s',
      rewrite_text_with_tone svc text tone s = (Ret r, s') ->
      history s' = history s
      /\ exists evs,
           trace s' = trace s ++ evs
           /\ (r = None -> exists e, last evs = Some (StError rewriting_error e))
           /\ (forall t, r = Some t ->
                         Forall (fun ev => is_message ev = false) evs
                         /\ strip t = t))
  /\ (forall e w1,
         hf_pipeline svc (world s) = (Raise e, w1) ->
         rewrite_text_with_tone svc text tone s
         = (Ret None,
            {| history := history s;
               trace := trace s ++
                 [EnterRewrite text tone; HfPipeline; StError rewriting_error e];
               world := w1 |})).
Proof.
  split; [|intros e w1 Hload; exact (rewrite_not_loaded svc text tone s e w1 Hload)].
  intros r s' E.
  destruct (rewrite_cases svc text tone (world s)) as (r0 & evs & w' & Er & Hshape).
  rewrite (local_run svc _ s _ _ _ (local_rewrite svc text tone) Er) in E.
  injection E as <- <-. simpl. split; [reflexivity|].
  exists (EnterRewrite text tone :: HfPipeline :: evs). split; [reflexivity|].
  destruct Hshape as [(-> & e & [-> | ->]) | (g & -> & ->)].
  - split; [intros _; exists e; reflexivity | discriminate].
  - split; [intros _; exists e; reflexivity | discriminate].
  - split; [discriminate|]. intros t [= <-].
    split; [repeat constructor | apply strip_idempotent].
Qed.

Lemma rewrite_adapter_outcome_witness :
  rewrite_text_with_tone pipeline_down (str "Hello world") (str "Neutral")
    (new_session (0 : World pipeline_down))
  = (Ret None,
     Build_State pipeline_down []
       [EnterRewrite (str "Hello world") (str "Neutral"); HfPipeline;
        StError rewriting_error
          (ServiceError (str "OSError") (str "model not found"))]
       1).
Proof.
  destruct (rewrite_adapter_outcome pipeline_down (str "Hello world") (str "Neutral")
              (new_session (0 : World pipeline_down))) as [_ H].
  exact (H (ServiceError (str "OSError") (str "model not found"))
           (1 : World pipeline_down) eq_refl).
Defined.

(** X2. What the synthesis adapter returns tells what it showed: when it
    returns, it has kept the history and only added events; when the value
    is [None] the last thing it did was to show its error message, and when
    the value is bytes it showed no message and the accent is one of the
    three of the table. An [Exception] raised by the construction of the
    gTTS object, or by the writing of the audio, is caught: it is shown with
    [st.error] and [None] is returned; after a failed construction nothing is
    written. *)
Theorem convert_adapter_outcome (svc : Services) (text accent : pystr)
    (s : State svc) :
  (forall r s',
      convert_text_to_speech svc text accent s = (Ret r, s') ->
      history s' = history s
      /\ exists evs,
           trace s' = trace s ++ evs
           /\ (r = None -> exists e, last evs = Some (StError audio_error e))
           /\ (forall au, r = Some au ->
                          Forall (fun ev => is_message ev = false) evs
                          /\ accent ∈ accent_options))
  /\ (forall tld e w1,
         tld_map !! accent = Some tld ->
         gtts_new svc text (str "en") tld false (world s) = (Raise e, w1) ->
         convert_text_to_speech svc text accent s
         = (Ret None,
            {| history := history s;
               trace := trace s ++
                 [EnterSynth text accent; GttsNew text (str "en") tld false;
                  StError audio_error e];
               world := w1 |}))
  /\ (forall tld tts w1 e w2,
         tld_map !! accent = Some tld ->
         gtts_new svc text (str "en") tld false (world s) = (Ret tts, w1) ->
         gtts_stream svc tts w1 = (Raise e, w2) ->
         convert_text_to_speech svc text accent s
         = (Ret None,
            {| history := history s;
               trace := trace s ++
                 [EnterSynth text accent; GttsNew text (str "en") tld false;
                  GttsWrite; StError audio_error e];
               world := w2 |})).
Proof.
  split; [|split].
  - intros r s' E.
    destruct (convert_cases svc text accent (world s)) as (r0 & evs & w' & Er & Hshape).
    rewrite (local_run svc _ s _ _ _ (local_convert svc text accent) Er) in E.
    injection E as <- <-. simpl. split; [reflexivity|].
    exists (EnterSynth text accent :: evs). split; [reflexivity|].
    destruct Hshape
      as [(-> & _ & _ & ->)
         | [(tld & e & -> & _ & [-> | ->]) | (tld & au & -> & Htld & ->)]].
    + split; [intros _; eexists; reflexivity | discriminate].
    + split; [intros _; exists e; reflexivity | discriminate].
    + split; [intros _; exists e; reflexivity | discriminate].
    + split; [discriminate|]. intros au' _.
      split; [repeat constructor | exact (accent_of_table accent tld Htld)].
  - intros tld e w1 Htld Hnew.
    rewrite (convert_known svc text accent tld s Htld), Hnew. reflexivity.
  - intros tld tts w1 e w2 Htld Hnew Hstream.
    rewrite (convert_known svc text accent tld s Htld), Hnew, Hstream. reflexivity.
Qed.

Lemma convert_adapter_outcome_witness :
  convert_text_to_speech speech_down (str "A calm morning.") (str "US English")
    (new_session (0 : World speech_down))
  = (Ret None,
     Build_State speech_down []
       [EnterSynth (str "A calm morning.") (str "US English");
        GttsNew (str "A calm morning.") (str "en") (str "com") false;
        GttsWrite;
        StError audio_error
          (ServiceError (str "gTTSError") (str "Failed to connect"))]
       2).
Proof.
  destruct (convert_adapter_outcome speech_down (str "A calm morning.")
              (str "US English") (new_session (0 : World speech_down)))
    as (_ & _ & H).
  apply (H (str "com") tt (1 : World speech_down)
           (ServiceError (str "gTTSError") (str "Failed to connect"))
           (2 : World speech_down)).
  - vm_compute. reflexivity.
  - reflexivity.
  - reflexivity.
Defined.

(** X3. For an accent of the table, when gTTS is built and streams its
    chunks, the adapter returns all the bytes written to the buffer, in the
    order they were written: the buffer is read from its start. *)
Theorem convert_returns_written_bytes (svc : Services) (text accent tld : pystr)
    (s : State svc) tts w1 chunks w2 :
  tld_map !! accent = Some tld ->
  gtts_new svc text (str "en") tld false (world s) = (Ret tts, w1) ->
  gtts_stream svc tts w1 = (Ret chunks, w2) ->
  convert_text_to_speech svc text accent s
  = (Ret (Some (concat chunks)),
     {| history := history s;
        trace := trace s ++ [EnterSynth text accent;
                             GttsNew text (str "en") tld false; GttsWrite];
        world := w2 |}).
Proof.
  intros Htld Hnew Hstream.
  rewrite (convert_known svc text accent tld s Htld), Hnew, Hstream. reflexivity.
Qed.

Lemma convert_returns_written_bytes_witness :
  convert_text_to_speech good (str "A calm morning.") (str "UK English")
    (new_session (0 : World good))
  = (Ret (Some mp3),
     Build_State good []
       [EnterSynth (str "A calm morning.") (str "UK English");
        GttsNew (str "A calm morning.") (str "en") (str "co.uk") false; GttsWrite]
       2).
Proof.
  apply (convert_returns_written_bytes good (str "A calm morning.")
           (str "UK English") (str "co.uk") (new_session (0 : World good))
           tt (1 : World good) mp3_chunks (2 : World good)).
  - vm_compute. reflexivity.
  - reflexivity.
  - reflexivity.
Defined.

(** X4. Once the pipeline is loaded, an answer of the model that cannot be
    used is caught: an empty list ends in the [IndexError] of [result[0]], a
    first entry without the key in the [KeyError] of ['generated_text'], an
    exception of the model in that exception; each is shown with
    [st.error] and the adapter returns [None]. *)
Theorem rewrite_malformed_answer (svc : Services) (text tone : pystr)
    (s : State svc) p w1 :
  hf_pipeline svc (world s) = (Ret p, w1) ->
  (forall w2,
      hf_generate svc p (rewrite_prompt svc text tone) 300 4 true w1 = (Ret [], w2) ->
      rewrite_text_with_tone svc text tone s
      = (Ret None,
         {| history := history s;
            trace := trace s ++
              [EnterRewrite text tone; HfPipeline;
               HfGenerate (rewrite_prompt svc text tone) 300 4 true;
               StError rewriting_error IndexError];
            world := w2 |}))
  /\ (forall d ds w2,
         hf_generate svc p (rewrite_prompt svc text tone) 300 4 true w1
         = (Ret (d :: ds), w2) ->
         d !! str "generated_text" = None ->
         rewrite_text_with_tone svc text tone s
         = (Ret None,
            {| history := history s;
               trace := trace s ++
                 [EnterRewrite text tone; HfPipeline;
                  HfGenerate (rewrite_prompt svc text tone) 300 4 true;
                  StError rewriting_error (KeyError (str "generated_text"))];
               world := w2 |}))
  /\ (forall e w2,
         hf_generate svc p (rewrite_prompt svc text tone) 300 4 true w1
         = (Raise e, w2) ->
         rewrite_text_with_tone svc text tone s
         = (Ret None,
            {| history := history s;
               trace := trace s ++
                 [EnterRewrite text tone; HfPipeline;
                  HfGenerate (rewrite_prompt svc text tone) 300 4 true;
                  StError rewriting_error e];
               world := w2 |})).
Proof.
  intros Hload. rewrite (rewrite_loaded svc text tone s p w1 Hload).
  split; [|split].
  - intros w2 ->. reflexivity.
  - intros d ds w2 -> ->. reflexivity.
  - intros e w2 ->. reflexivity.
Qed.

Lemma rewrite_malformed_answer_witness :
  rewrite_text_with_tone empty_answer (str "Hello world") (str "Neutral")
    (new_session (0 : World empty_answer))
  = (Ret None,
     Build_State empty_answer []
       [EnterRewrite (str "Hello world") (str "Neutral"); HfPipeline;
        HfGenerate (str "Rewrite the following text in a neutral tone: Hello world")
                   300 4 true;
        StError rewriting_error IndexError]
       2).
Proof.
  destruct (rewrite_malformed_answer empty_answer (str "Hello world") (str "Neutral")
              (new_session (0 : World empty_answer)) tt (1 : World empty_answer))
    as [H _].
  - reflexivity.
  - exact (H (2 : World empty_answer) eq_refl).
Defined.

(** ** A press, whatever the services do *)

Section PressFacts.

Variable svc : Services.

(** The shape of the events of the rewrite adapter, in a press. *)
Lemma rewrite_events_shape (text tone : pystr) (w : World svc) r revs w1 :
  isolated (rewrite_text_with_tone svc text tone) w = (Ret r, revs, w1) ->
  exists evs,
    revs = EnterRewrite text tone :: HfPipeline :: evs
    /\ ((r = None
         /\ exists e,
              evs = [StError rewriting_error e]
              \/ evs = [HfGenerate (rewrite_prompt svc text tone) 300 4 true;
                        StError rewriting_error e])
        \/ (exists g,
               r = Some (strip g)
               /\ evs = [HfGenerate (rewrite_prompt svc text tone) 300 4 true])).
Proof.
  intros E. destruct (rewrite_cases svc text tone w) as (r' & evs & w' & E' & H).
  rewrite E in E'. injection E' as -> -> ->. exists evs. split; [reflexivity | exact H].
Qed.

(** The shape of the events of the synthesis adapter, in a press. *)
Lemma convert_events_shape (text accent : pystr) (w : World svc) a aevs w2 :
  isolated (convert_text_to_speech svc text accent) w = (Ret a, aevs, w2) ->
  exists evs,
    aevs = EnterSynth text accent :: evs
    /\ ((a = None /\ exists e, evs = [StError audio_error e])
        \/ (exists tld e,
               a = None
               /\ (evs = [GttsNew text (str "en") tld false; StError audio_error e]
                   \/ evs = [GttsNew text (str "en") tld false; GttsWrite;
                             StError audio_error e]))
        \/ (exists tld au,
               a = Some au /\ tld_map !! accent = Some tld
               /\ evs = [GttsNew text (str "en") tld false; GttsWrite])).
Proof.
  intros E. destruct (convert_cases svc text accent w) as (a' & evs & w' & E' & H).
  rewrite E in E'. injection E' as -> -> ->. exists evs. split; [reflexivity|].
  destruct H as [(-> & _ & _ & ->) | [(tld & e & -> & _ & H) | (tld & au & -> & Htld & ->)]].
  - left. split; [reflexivity | eexists; reflexivity].
  - right. left. exists tld, e. split; [reflexivity | exact H].
  - right. right. exists tld, au. repeat split. exact Htld.
Qed.

(** The record of a press that succeeds is complete. *)
Lemma run_record_complete (p : Press) (s : State svc) (r : NarrationRecord) :
  run_record p s = Some r -> complete_record r.
Proof.
  unfold run_record.
  destruct (truthy (strip (press_text p))) eqn:Htext; [|discriminate].
  destruct (rewrite_text_with_tone svc (press_text p) (press_tone p) s)
    as [[[[|c rw]|]|e] s1] eqn:E1; try discriminate.
  destruct (convert_text_to_speech svc (c :: rw) (press_accent p) s1)
    as [[[[|b au]|]|e] s2] eqn:E2; try discriminate.
  intros [= <-]. unfold complete_record. simpl.
  split; [intros H; rewrite H in Htext; discriminate|].
  split; [discriminate|].
  split; [exact (rewrite_returns_trimmed svc _ _ _ _ _ E1)|].
  split; [discriminate|].
  exact (convert_returns_known svc _ _ _ _ _ E2).
Qed.

End PressFacts.

Ltac not_in_events :=
  let Hin := fresh "Hin" in
  intros Hin;
  repeat (apply elem_of_cons in Hin as [Hin | Hin]; [discriminate Hin|]);
  apply elem_of_nil in Hin; exact Hin.

(** X5. The handler refuses a text exactly when it is made of white space
    only (the empty text included): then it shows the warning and does
    nothing else. Any other text reaches the rewrite adapter, and it is the
    text as typed, not the trimmed one, that is passed on. *)
Theorem validation_rejects_exactly_blank (svc : Services)
    (text tone accent : pystr) (s : State svc) :
  (forallb isspace text = true ->
   generate_audiobook svc text tone accent s
   = (Ret tt,
      {| history := history s;
         trace := trace s ++ [warning_no_text];
         world := world s |}))
  /\ (forallb isspace text = false ->
      exists evs s',
        generate_audiobook svc text tone accent s = (Ret tt, s')
        /\ trace s' = trace s ++ spinner_rewriting :: EnterRewrite text tone :: evs).
Proof.
  split.
  - intros Hblank. apply strip_blank in Hblank.
    unfold generate_audiobook. rewrite Hblank. reflexivity.
  - intros Hsome.
    destruct (generate_cases svc text tone accent s)
      as (evs & s' & E & Htr & [(Hblank & _) | (_ & r & revs & w1 & Er & Hrest)]).
    + apply strip_blank in Hblank. congruence.
    + destruct (rewrite_events_shape svc text tone _ _ _ _ Er) as (evs0 & -> & _).
      destruct Hrest as [(_ & -> & _) | (rw & a & aevs & w2 & _ & _ & _ & _ & Hlast)].
      * eexists _, s'. split; [exact E | exact Htr].
      * destruct Hlast as [(_ & -> & _) | (au & _ & _ & -> & _)];
          (eexists _, s'; split; [exact E | exact Htr]).
Qed.

Lemma validation_rejects_exactly_blank_witness :
  generate_audiobook good [32; 9; 10; 160]%N (str "Neutral") (str "US English")
    (new_session (0 : World good))
  = (Ret tt, Build_State good [] [warning_no_text] 0).
Proof.
  destruct (validation_rejects_exactly_blank good [32; 9; 10; 160]%N (str "Neutral")
              (str "US English") (new_session (0 : World good))) as [H _].
  exact (H eq_refl).
Defined.

(** X6. A press makes one attempt: among the events of a press that
    returns there is at most one call of the text model and at most one
    construction of a gTTS object. It adds at most one record, and the
    success message is shown exactly when it adds one: it is then the last
    event of the press, and otherwise it is not among them. *)
Theorem press_is_single_attempt (svc : Services) (text tone accent : pystr)
    (s : State svc) (r : Res unit) (s' : State svc) :
  generate_audiobook svc text tone accent s = (r, s') ->
  exists evs,
    trace s' = trace s ++ evs
    /\ length (List.filter is_generate_call evs) <= 1
    /\ length (List.filter is_gtts_call evs) <= 1
    /\ ((history s' = history s /\ success_generated ∉ evs)
        \/ (exists rec, history s' = rec :: history s
                        /\ last evs = Some success_generated)).
Proof.
  intros Hrun.
  destruct (generate_cases svc text tone accent s)
    as (evs & s'' & E & Htr & Hcases).
  rewrite E in Hrun. injection Hrun as _ <-.
  exists evs. split; [exact Htr|].
  destruct Hcases as [(_ & -> & Hh & _) | (_ & r0 & revs & w1 & Er & Hrest)].
  { simpl. repeat split; try lia. left. split; [exact Hh | not_in_events]. }
  destruct (rewrite_events_shape svc text tone _ _ _ _ Er) as (evs0 & -> & Hr).
  destruct Hrest as [(_ & -> & Hh & _) | (rw & a & aevs & w2 & -> & _ & Ea & _ & Hlast)].
  { destruct Hr as [(_ & e & [-> | ->]) | (g & _ & ->)]; simpl;
      (repeat split; try lia; left; split; [exact Hh | not_in_events]). }
  destruct (convert_events_shape svc rw accent _ _ _ _ Ea) as (evs1 & -> & Ha).
  assert (Hrw : evs0 = [HfGenerate (rewrite_prompt svc text tone) 300 4 true]).
  { destruct Hr as [(Hnone & _) | (g & _ & ->)]; [discriminate | reflexivity]. }
  subst evs0.
  destruct Hlast as [(_ & -> & Hh) | (au & -> & _ & -> & Hh)].
  - destruct Ha as [(_ & e & ->) | [(tld & e & _ & [-> | ->]) | (tld & au & _ & _ & ->)]];
      simpl; (repeat split; try lia; left; split; [exact Hh | not_in_events]).
  - destruct Ha as [(Hnone & _) | [(tld & e & Hnone & _) | (tld & au' & _ & _ & ->)]];
      try discriminate.
    simpl. repeat split; try lia. right. eexists. split; [exact Hh | reflexivity].
Qed.

Lemma press_is_single_attempt_witness :
  exists evs,
    [spinner_rewriting;
     EnterRewrite (str "Hello world") (str "Neutral"); HfPipeline;
     HfGenerate (str "Rewrite the following text in a neutral tone: Hello world")
                300 4 true;
     spinner_synthesizing;
     EnterSynth (str "A calm morning.") (str "US English");
     GttsNew (str "A calm morning.") (str "en") (str "com") false; GttsWrite;
     success_generated]
    = [] ++ evs
    /\ length (List.filter is_generate_call evs) <= 1
    /\ length (List.filter is_gtts_call evs) <= 1
    /\ (([ {| original := str "Hello world"; rewritten := str "A calm morning.";
              tone := str "Neutral"; accent := str "US English"; audio := mp3 |} ]
         = [] /\ success_generated ∉ evs)
        \/ (exists rec,
               [ {| original := str "Hello world";
                    rewritten := str "A calm morning.";
                    tone := str "Neutral"; accent := str "US English";
                    audio := mp3 |} ]
               = rec :: []
               /\ last evs = Some success_generated)).
Proof.
  apply (press_is_single_attempt good (str "Hello world") (str "Neutral")
           (str "US English") (new_session (0 : World good)) (Ret tt)
           (Build_State good
              [ {| original := str "Hello world"; rewritten := str "A calm morning.";
                   tone := str "Neutral"; accent := str "US English";
                   audio := mp3 |} ]
              [spinner_rewriting;
               EnterRewrite (str "Hello world") (str "Neutral"); HfPipeline;
               HfGenerate
                 (str "Rewrite the following text in a neutral tone: Hello world")
                 300 4 true;
               spinner_synthesizing;
               EnterSynth (str "A calm morning.") (str "US English");
               GttsNew (str "A calm morning.") (str "en") (str "com") false;
               GttsWrite;
               success_generated]
              4)).
  vm_compute. reflexivity.
Defined.

(** X7. Every record the handler puts in the history is complete: its
    original text is not blank, its rewritten text is not empty and carries
    no white space at its ends, its audio is not empty and its accent is one
    of the three of the table, whatever strings the presses carry. A history
    of complete records stays one through any presses. *)
Theorem records_are_complete (svc : Services) (ps : list Press) (s : State svc) :
  Forall complete_record (history s) ->
  Forall complete_record (history (run_presses ps s)).
Proof.
  revert s. induction ps as [|p ps IH]; intros s Hs; simpl; [exact Hs|].
  apply IH. rewrite run_press_history.
  destruct (run_record p s) as [r|] eqn:Hr; [|exact Hs].
  constructor; [exact (run_record_complete svc p s r Hr) | exact Hs].
Qed.

Lemma records_are_complete_witness :
  Forall complete_record
    (history (run_presses [hello; again] (new_session (0 : World good)))).
Proof.
  apply (records_are_complete good [hello; again] (new_session (0 : World good))).
  constructor.
Defined.

(** X8. After any presses, failed ones among them, the history holds the
    records of the presses that succeeded and nothing else, the latest
    first, before the history of the start: a failed press leaves no entry
    and no gap. So the history grows by at most one record a press. *)
Theorem history_of_mixed_presses (svc : Services) (ps : list Press) (s : State svc) :
  history (run_presses ps s) = rev (omap id (run_records ps s)) ++ history s
  /\ length (history (run_presses ps s)) <= length (history s) + length ps.
Proof.
  assert (H : history (run_presses ps s)
              = rev (omap id (run_records ps s)) ++ history s).
  { revert s. induction ps as [|p ps IH]; intros s; simpl; [reflexivity|].
    rewrite IH, run_press_history.
    destruct (run_record p s) as [r|]; simpl.
    - rewrite <- app_assoc. reflexivity.
    - reflexivity. }
  split; [exact H|].
  rewrite H, length_app, length_rev.
  assert (Hlen : forall l : list (option NarrationRecord),
             length (omap id l) <= length l).
  { induction l as [|[r|] l IHl]; cbn in *; lia. }
  pose proof (Hlen (run_records ps s)) as Hle.
  rewrite run_records_length in Hle. lia.
Qed.

(** X9. A press does not depend on the narrations made before: run in any
    state, it returns what it returns in a session that starts in the same
    world, puts the same records before the history and the same events
    after the trace, and leaves the same world. *)
Theorem press_ignores_history (svc : Services) (text tone accent : pystr)
    (s : State svc) :
  generate_audiobook svc text tone accent s
  = let '(r, s') := generate_audiobook svc text tone accent (new_session (world s)) in
    (r, {| history := history s' ++ history s;
           trace := trace s ++ trace s';
           world := world s' |}).
Proof.
  unfold generate_audiobook.
  destruct (strip text) as [|c0 t0] eqn:Htext; cbn [truthy negb]; [reflexivity|].
  rewrite !(bind_ret_eq _ _ _ _ _ (emit_eq svc _ _)).
  destruct (rewrite_cases svc text tone (world s)) as (r & revs & w1 & Er & _).
  rewrite (bind_ret_eq _ _ _ _ _
             (local_run svc _ {| history := history s;
                                  trace := trace s ++ [spinner_rewriting];
                                  world := world s |}
                _ _ _ (local_rewrite svc text tone) Er)).
  rewrite (bind_ret_eq _ _ _ _ _
             (local_run svc _ {| history := history (new_session (world s));
                                  trace := trace (new_session (world s))
                                             ++ [spinner_rewriting];
                                  world := world (new_session (world s)) |}
                _ _ _ (local_rewrite svc text tone) Er)).
  destruct r as [[|c rw]|]; try (simpl; rewrite <- !app_assoc; reflexivity).
  rewrite !(bind_ret_eq _ _ _ _ _ (emit_eq svc _ _)).
  destruct (convert_cases svc (c :: rw) accent w1) as (a & aevs & w2 & Ea & _).
  match goal with
  | |- bind _ _ ?st1 = (let '(_, _) := bind _ _ ?st2 in _) =>
      rewrite (bind_ret_eq _ _ _ _ _
                 (local_run svc _ st1 _ _ _ (local_convert svc (c :: rw) accent) Ea));
      rewrite (bind_ret_eq _ _ _ _ _
                 (local_run svc _ st2 _ _ _ (local_convert svc (c :: rw) accent) Ea))
  end.
  destruct a as [[|b au]|]; try (simpl; rewrite <- !app_assoc; reflexivity).
  rewrite !(bind_ret_eq _ _ _ _ _ (emit_eq svc _ _)).
  simpl. rewrite <- !app_assoc. reflexivity.
Qed.

(** ** Base64 and UTF-8 *)

Lemma list_ind3 {A} (P : list A -> Prop) :
  P [] -> (forall a, P [a]) -> (forall a b, P [a; b]) ->
  (forall a b c l, P l -> P (a :: b :: c :: l)) ->
  forall l, P l.
Proof.
  intros H0 H1 H2 H3 l.
  assert (H : P l /\ (forall a, P (a :: l)) /\ (forall a b, P (a :: b :: l))).
  { induction l as [|x l (IH0 & IH1 & IH2)].
    - repeat split; auto.
    - split; [apply IH1|]. split; [intros a; apply IH2|].
      intros a b. apply H3, IH0. }
  exact (proj1 H).
Qed.

Lemma b64_digit_char (n : N) : is_b64_char (Byte.to_N (b64_digit n)) = true.
Proof.
  unfold b64_digit.
  destruct (nth_in_or_default (N.to_nat n) b64_alphabet Byte.x3d) as [Hin | ->];
    [|reflexivity].
  assert (Hall : forallb (fun b => is_b64_char (Byte.to_N b)) b64_alphabet = true)
    by (vm_compute; reflexivity).
  rewrite forallb_forall in Hall. exact (Hall _ Hin).
Qed.

Lemma b64encode_chars (bs : pybytes) :
  Forall (fun b => is_b64_char (Byte.to_N b) = true) (b64encode bs).
Proof.
  induction bs as [|a|a b|a b c l IH] using list_ind3; cbn [b64encode].
  - constructor.
  - repeat (constructor; [first [apply b64_digit_char | reflexivity]|]). constructor.
  - repeat (constructor; [first [apply b64_digit_char | reflexivity]|]). constructor.
  - repeat (constructor; [apply b64_digit_char|]). exact IH.
Qed.

Lemma b64encode_length (bs : pybytes) :
  length (b64encode bs) = 4 * ((length bs + 2) / 3).
Proof.
  induction bs as [|a|a b|a b c l IH] using list_ind3; cbn [b64encode length].
  - reflexivity.
  - reflexivity.
  - reflexivity.
  - rewrite IH.
    replace (S (S (S (length l))) + 2) with (1 * 3 + (length l + 2)) by lia.
    rewrite Nat.div_add_l by lia. lia.
Qed.

(** Bytes below 128 decode to themselves. *)
Lemma utf8_decode_values_ascii (vs : list N) :
  Forall (fun v => (v < 128)%N) vs -> utf8_decode_values vs = Ret vs.
Proof.
  induction 1 as [|v vs Hv _ IH]; simpl; [reflexivity|].
  apply N.ltb_lt in Hv. rewrite Hv, IH. reflexivity.
Qed.

Lemma b64_char_ascii (c : N) : is_b64_char c = true -> (c < 128)%N.
Proof.
  unfold is_b64_char.
  rewrite !orb_true_iff, !andb_true_iff, !N.leb_le, !N.eqb_eq. lia.
Qed.

(** The decoding of Base64 text never fails. *)
Lemma utf8_decode_b64encode (bs : pybytes) :
  utf8_decode (b64encode bs) = Ret (List.map Byte.to_N (b64encode bs)).
Proof.
  unfold utf8_decode. apply utf8_decode_values_ascii.
  apply Forall_map. eapply Forall_impl; [apply b64encode_chars|].
  intros b Hb. exact (b64_char_ascii _ Hb).
Qed.

(** X10. When the image file can be read, [set_background] puts one
    markdown element with HTML allowed on the page: the fixed style text
    around the image in Base64. That part has four characters for every three
    bytes of the image (rounded up), all of them letters, digits, "+", "/" or
    "=": the image cannot close the [url(...)] or the style block. *)
Theorem set_background_style (host : Host) (image_file : pystr) (img_data : pybytes) :
  read_binary host image_file = Ret img_data ->
  exists b64_encoded,
    set_background host image_file
    = Ret (ElMarkdown (style_before ++ b64_encoded ++ style_after) true)
    /\ b64_encoded = List.map Byte.to_N (b64encode img_data)
    /\ length b64_encoded = 4 * ((length img_data + 2) / 3)
    /\ Forall (fun c => is_b64_char c = true) b64_encoded.
Proof.
  intros Hread. exists (List.map Byte.to_N (b64encode img_data)).
  unfold set_background. rewrite Hread, utf8_decode_b64encode.
  split; [reflexivity|]. split; [reflexivity|].
  split; [rewrite length_map; apply b64encode_length|].
  apply Forall_map, b64encode_chars.
Qed.

Lemma set_background_style_witness :
  exists b64_encoded,
    set_background one_image (str "assets/background.jpg")
    = Ret (ElMarkdown (style_before ++ b64_encoded ++ style_after) true)
    /\ b64_encoded = List.map Byte.to_N (b64encode [Byte.xff; Byte.xd8; Byte.xff])
    /\ length b64_encoded = 4 * ((3 + 2) / 3)
    /\ Forall (fun c => is_b64_char c = true) b64_encoded.
Proof.
  apply (set_background_style one_image (str "assets/background.jpg")
           [Byte.xff; Byte.xd8; Byte.xff]).
  vm_compute. reflexivity.
Defined.

(** ** The script *)

Section ScriptFacts.

Variable svc : Services.
Variable host : Host.

(** A session that holds a history is left as it is by the first statement. *)
Lemma session_start_stored (s : State svc) :
  session_start (Some (history s)) (trace s) (world s) = s.
Proof. destruct s. reflexivity. Qed.

(** The state a run leaves: the one it found, or the one of a press. *)
Lemma app_state (wd : Widgets) (s : State svc) :
  snd (app svc host wd s) = s
  \/ (generate_clicked wd = true
      /\ exists text,
           snd (app svc host wd s)
           = snd (generate_audiobook svc text (tone_label (selected_tone wd))
                    (accent_label (selected_accent wd)) s)).
Proof.
  unfold app.
  destruct (set_background host (str "assets/background.jpg")) as [style|e];
    [|left; reflexivity].
  destruct (provide_text wd) as [[text|e] shown]; [|left; reflexivity].
  destruct (generate_clicked wd); [|left; reflexivity].
  right. split; [reflexivity|]. exists text.
  destruct (generate_audiobook svc text (tone_label (selected_tone wd))
              (accent_label (selected_accent wd)) s) as [[[]|e] s1]; reflexivity.
Qed.

Lemma app_suffix (wd : Widgets) (s : State svc) :
  history s `suffix_of` history (snd (app svc host wd s))
  /\ length (history (snd (app svc host wd s)))
     <= length (history s) + (if generate_clicked wd then 1 else 0).
Proof.
  destruct (app_state wd s) as [-> | (Hclick & text & ->)].
  - split; [reflexivity | lia].
  - rewrite Hclick.
    destruct (generate_run svc text (tone_label (selected_tone wd))
                (accent_label (selected_accent wd)) s) as (s' & E & [H | [r H]]);
      rewrite E; simpl; rewrite H.
    + split; [reflexivity | lia].
    + split; [apply suffix_cons_r; reflexivity | simpl; lia].
Qed.

End ScriptFacts.

(** X11. The image of the background is read outside any [try]: when it
    cannot be read, every run of the script ends in that exception right
    after the page configuration, whatever the widgets hold. The form is not
    shown, a click does nothing, and a session keeps the state it started
    with. *)
Theorem missing_background_aborts (svc : Services) (host : Host) (e : exn) :
  read_binary host (str "assets/background.jpg") = Raise e ->
  (forall wd stored tr w,
      run_script svc host wd stored tr w
      = (Raise e, [ElPageConfig (str "EchoVerse") (str "centered")],
         session_start stored tr w))
  /\ (forall wds s, session svc host wds s = s).
Proof.
  intros Hread.
  assert (Hrun : forall wd s,
             app svc host wd s
             = (Raise e, [ElPageConfig (str "EchoVerse") (str "centered")], s)).
  { intros wd s. unfold app, set_background. rewrite Hread. reflexivity. }
  split.
  - intros wd stored tr w. apply Hrun.
  - intros wds. induction wds as [|wd wds IH]; intros s; [reflexivity|].
    unfold session in *. simpl. unfold run_script at 2.
    rewrite session_start_stored, Hrun. simpl. apply IH.
Qed.

Lemma missing_background_aborts_witness :
  session good no_files [paste_hello; upload_hello] (new_session (0 : World good))
  = new_session (0 : World good).
Proof.
  destruct (missing_background_aborts good no_files
              (ServiceError (str "FileNotFoundError") (str "assets/background.jpg")))
    as [_ H].
  - reflexivity.
  - exact (H [paste_hello; upload_hello] (new_session (0 : World good))).
Defined.

(** X12. An uploaded file that decodes as UTF-8 to a text gives the same
    run as that text pasted: the same outcome and the same state (history,
    events, world) for the same tone, accent and button. A file of bytes
    below 128 decodes to the characters of those codes. *)
Theorem upload_equals_paste (svc : Services) (host : Host)
    (uploaded pasted : Widgets) (content : pybytes) stored tr (w : World svc) :
  input_method uploaded = UploadFile ->
  uploaded_file uploaded = Some content ->
  input_method pasted = PasteText ->
  utf8_decode content = Ret (pasted_text pasted) ->
  selected_tone uploaded = selected_tone pasted ->
  selected_accent uploaded = selected_accent pasted ->
  generate_clicked uploaded = generate_clicked pasted ->
  fst (fst (run_script svc host uploaded stored tr w))
  = fst (fst (run_script svc host pasted stored tr w))
  /\ snd (run_script svc host uploaded stored tr w)
     = snd (run_script svc host pasted stored tr w)
  /\ (Forall (fun b => (Byte.to_N b < 128)%N) content ->
      pasted_text pasted = List.map Byte.to_N content).
Proof.
  intros Hup Hfile Hpa Hdec Htone Haccent Hclick.
  unfold run_script, app.
  destruct (set_background host (str "assets/background.jpg")) as [style|e].
  - unfold provide_text. rewrite Hup, Hpa, Hfile, Hdec, Htone, Haccent, Hclick.
    destruct (decide (method_label UploadFile = str "Paste Text")) as [Heq|_];
      [vm_compute in Heq; discriminate|].
    destruct (decide (method_label PasteText = str "Paste Text")) as [_|Hne];
      [|exfalso; apply Hne; reflexivity].
    destruct (if generate_clicked pasted then _ else _) as [[[]|e] s1];
      (split; [reflexivity|]; split; [reflexivity|]);
      intros Hascii; unfold utf8_decode in Hdec;
      rewrite utf8_decode_values_ascii in Hdec by (apply Forall_map; exact Hascii);
      congruence.
  - split; [reflexivity|]. split; [reflexivity|].
    intros Hascii. unfold utf8_decode in Hdec.
    rewrite utf8_decode_values_ascii in Hdec by (apply Forall_map; exact Hascii).
    congruence.
Qed.

Lemma upload_equals_paste_witness :
  snd (run_script good one_image upload_hello None [] (0 : World good))
  = snd (run_script good one_image paste_hello None [] (0 : World good)).
Proof.
  apply (upload_equals_paste good one_image upload_hello paste_hello
           (list_byte_of_string "Hello world") None [] (0 : World good));
    reflexivity.
Defined.

(** A byte that cannot start a UTF-8 sequence: a continuation byte, 0xC0,
    0xC1, or 0xF5 and above. *)
Lemma utf8_decode_bad_lead (b : Byte.byte) (rest : pybytes) :
  (128 <= Byte.to_N b < 194 \/ 245 <= Byte.to_N b)%N ->
  utf8_decode (b :: rest) = Raise UnicodeDecodeError.
Proof.
  intros Hbyte. unfold utf8_decode. cbn [List.map utf8_decode_values].
  destruct (Byte.to_N b <? 128)%N eqn:H1; [apply N.ltb_lt in H1; lia|].
  destruct ((194 <=? Byte.to_N b) && (Byte.to_N b <=? 223))%N eqn:H2.
  { apply andb_true_iff in H2 as [H2 H2']. apply N.leb_le in H2, H2'. lia. }
  destruct ((224 <=? Byte.to_N b) && (Byte.to_N b <=? 239))%N eqn:H3.
  { apply andb_true_iff in H3 as [H3 H3']. apply N.leb_le in H3, H3'. lia. }
  destruct ((240 <=? Byte.to_N b) && (Byte.to_N b <=? 244))%N eqn:H4.
  { apply andb_true_iff in H4 as [H4 H4']. apply N.leb_le in H4, H4'. lia. }
  reflexivity.
Qed.

(** X13. The decoding of an uploaded file is not guarded: a file that is not
    UTF-8 ends the run in the exception of the decoding once the uploader is
    shown. The handler is not reached even when the button was clicked, and
    the state is the one the run found. This is the case of every file whose
    first byte cannot start a UTF-8 sequence (a continuation byte, 0xC0,
    0xC1, or 0xF5 and above). *)
Theorem undecodable_upload_aborts (svc : Services) (host : Host) (wd : Widgets)
    (content img_data : pybytes) stored tr (w : World svc) :
  read_binary host (str "assets/background.jpg") = Ret img_data ->
  input_method wd = UploadFile ->
  uploaded_file wd = Some content ->
  (forall e,
      utf8_decode content = Raise e ->
      exists style,
        run_script svc host wd stored tr w
        = (Raise e,
           page_top style ++ [ElFileUploader (str "Upload a .txt file") [str "txt"]],
           session_start stored tr w))
  /\ (forall b rest,
         content = b :: rest ->
         (128 <= Byte.to_N b < 194 \/ 245 <= Byte.to_N b)%N ->
         utf8_decode content = Raise UnicodeDecodeError).
Proof.
  intros Hread Hup Hfile. split.
  - intros e Hdec.
    destruct (set_background_style host _ img_data Hread) as (data & Hstyle & _).
    eexists. unfold run_script, app. rewrite Hstyle.
    unfold provide_text. rewrite Hup, Hfile.
    destruct (decide (method_label UploadFile = str "Paste Text")) as [Heq|_];
      [vm_compute in Heq; discriminate|].
    rewrite Hdec. reflexivity.
  - intros b rest -> Hbyte. exact (utf8_decode_bad_lead b rest Hbyte).
Qed.

Lemma undecodable_upload_aborts_witness :
  exists style,
    run_script good one_image upload_latin1 None [] (0 : World good)
    = (Raise UnicodeDecodeError,
       page_top style ++ [ElFileUploader (str "Upload a .txt file") [str "txt"]],
       session_start None [] (0 : World good)).
Proof.
  destruct (undecodable_upload_aborts good one_image upload_latin1
              [Byte.xe9; Byte.x74; Byte.xe9] [Byte.xff; Byte.xd8; Byte.xff]
              None [] (0 : World good)) as [H _].
  - reflexivity.
  - reflexivity.
  - reflexivity.
  - apply (H UnicodeDecodeError). vm_compute. reflexivity.
Defined.

(** X14. A run of the script without a click on the button (the user
    changed a widget, or the page was opened) calls no service, shows no
    message and leaves the history the session holds, or the empty one when
    the session is new; when the run ends normally its page closes with the
    latest narration and the past narrations of that history. *)
Theorem rerun_without_click (svc : Services) (host : Host) (wd : Widgets)
    stored tr (w : World svc) :
  generate_clicked wd = false ->
  snd (run_script svc host wd stored tr w) = session_start stored tr w
  /\ (fst (fst (run_script svc host wd stored tr w)) = Ret tt ->
      exists page,
        snd (fst (run_script svc host wd stored tr w))
        = page ++ latest_view (history (session_start stored tr w))
               ++ past_narrations (history (session_start stored tr w))).
Proof.
  intros Hclick. unfold run_script, app.
  destruct (set_background host (str "assets/background.jpg")) as [style|e];
    [|split; [reflexivity | discriminate]].
  destruct (provide_text wd) as [[text|e] shown];
    [|split; [reflexivity | discriminate]].
  rewrite Hclick. split; [reflexivity|].
  intros _. exists (page_top style ++ shown ++ page_form). reflexivity.
Qed.

Lemma rerun_without_click_witness :
  snd (run_script good one_image browse (Some [ {| original := str "Hello world";
                                                    rewritten := str "A calm morning.";
                                                    tone := str "Neutral";
                                                    accent := str "US English";
                                                    audio := mp3 |} ])
         [] (4 : World good))
  = session_start (Some [ {| original := str "Hello world";
                             rewritten := str "A calm morning.";
                             tone := str "Neutral";
                             accent := str "US English";
                             audio := mp3 |} ]) [] (4 : World good).
Proof.
  apply (rerun_without_click good one_image browse). reflexivity.
Defined.

(** X15. Through the runs of a session, whatever the widgets hold and
    whether runs end in an exception or not, the history a run finds is kept
    at the end of the history the session reaches, and the history grows by
    at most one record for each run in which the button was clicked. *)
Theorem session_keeps_history (svc : Services) (host : Host)
    (wds : list Widgets) (s : State svc) :
  history s `suffix_of` history (session svc host wds s)
  /\ length (history (session svc host wds s))
     <= length (history s) + length (List.filter generate_clicked wds).
Proof.
  revert s. induction wds as [|wd wds IH]; intros s.
  - split; [reflexivity | simpl; lia].
  - unfold session in *. cbn [fold_left]. unfold run_script at 2 4.
    rewrite session_start_stored.
    destruct (IH (snd (app svc host wd s))) as [Hsuf Hlen].
    destruct (app_suffix svc host wd s) as [Hsuf1 Hlen1].
    split; [etransitivity; eassumption|].
    cbn [List.filter]. destruct (generate_clicked wd); simpl in *; lia.
Qed.

(** X16. After a click that succeeds (the image and the text are there, the
    two adapters return usable values), the page closes with the new
    narration: the original text as provided, the rewritten text and the
    audio of the adapters, and a download button for that audio named
    "EchoVerse_" + tone + "_" + accent + ".mp3" after the two select boxes;
    the panel of past narrations follows, with the new record at the head of
    the history. *)
Theorem page_shows_latest_press (svc : Services) (host : Host) (wd : Widgets)
    (img_data : pybytes) (text rw : pystr) (au : pybytes) (shown : list Element)
    stored tr (w w1 w2 : World svc) :
  read_binary host (str "assets/background.jpg") = Ret img_data ->
  provide_text wd = (Ret text, shown) ->
  generate_clicked wd = true ->
  strip text <> [] ->
  adapter_returns
    (rewrite_text_with_tone svc text (tone_label (selected_tone wd))) w (Some rw) w1 ->
  rw <> [] ->
  adapter_returns
    (convert_text_to_speech svc rw (accent_label (selected_accent wd))) w1 (Some au) w2 ->
  au <> [] ->
  exists page s',
    run_script svc host wd stored tr w
    = (Ret tt,
       page ++
       [ElHeader (str "Your Generated Audiobook");
        ElSubheader (str "Original vs. Rewritten Text");
        ElColumns [[ElTextArea (str "Original Text") text 200 true];
                   [ElTextArea (str "Rewritten Text") rw 200 true]];
        ElSubheader (str "Listen to Your Audiobook");
        ElAudio au (str "audio/mp3");
        ElDownloadButton
          {| label := str "Download MP3";
             data := au;
             file_name := str "EchoVerse_" ++ tone_label (selected_tone wd)
                            ++ str "_" ++ accent_label (selected_accent wd)
                            ++ str ".mp3";
             mime := str "audio/mp3" |}]
       ++ past_narrations (history s'),
       s')
    /\ history s'
       = {| original := text; rewritten := rw;
            tone := tone_label (selected_tone wd);
            accent := accent_label (selected_accent wd);
            audio := au |} :: history (session_start stored tr w).
Proof.
  intros Hread Htext Hclick Hstrip Hrw Hrw_ne Hau Hau_ne.
  destruct (set_background_style host _ img_data Hread) as (b64 & Hstyle & _).
  destruct (generate_success svc text (tone_label (selected_tone wd))
              (accent_label (selected_accent wd)) rw au
              (session_start stored tr w) w1 w2 Hstrip Hrw Hrw_ne Hau Hau_ne)
    as [evs E].
  unfold run_script, app. rewrite Hstyle, Htext, Hclick, E.
  exists (page_top (ElMarkdown (style_before ++ b64 ++ style_after) true)
            ++ shown ++ page_form).
  exists {| history := {| original := text; rewritten := rw;
                          tone := tone_label (selected_tone wd);
                          accent := accent_label (selected_accent wd);
                          audio := au |} :: history (session_start stored tr w);
            trace := trace (session_start stored tr w) ++ evs;
            world := w2 |}.
  split; reflexivity.
Qed.

Lemma page_shows_latest_press_witness :
  exists page s',
    run_script good one_image paste_hello None [] (0 : World good)
    = (Ret tt,
       page ++
       [ElHeader (str "Your Generated Audiobook");
        ElSubheader (str "Original vs. Rewritten Text");
        ElColumns [[ElTextArea (str "Original Text") (str "Hello world") 200 true];
                   [ElTextArea (str "Rewritten Text") (str "A calm morning.") 200 true]];
        ElSubheader (str "Listen to Your Audiobook");
        ElAudio mp3 (str "audio/mp3");
        ElDownloadButton
          {| label := str "Download MP3";
             data := mp3;
             file_name := str "EchoVerse_" ++ tone_label Neutral
                            ++ str "_" ++ accent_label USEnglish ++ str ".mp3";
             mime := str "audio/mp3" |}]
       ++ past_narrations (history s'),
       s')
    /\ history s'
       = {| original := str "Hello world"; rewritten := str "A calm morning.";
            tone := tone_label Neutral;
            accent := accent_label USEnglish;
            audio := mp3 |} :: history (session_start None [] (0 : World good)).
Proof.
  apply (page_shows_latest_press good one_image paste_hello
           [Byte.xff; Byte.xd8; Byte.xff] (str "Hello world")
           (str "A calm morning.") mp3
           [ElTextArea (str "Paste your text here:") (str "Hello world") 150 false]
           None [] (0 : World good) (2 : World good) (4 : World good)).
  - reflexivity.
  - reflexivity.
  - reflexivity.
  - vm_compute. discriminate.
  - exists (new_session (0 : World good)). eexists.
    split; [reflexivity | split; [vm_compute; reflexivity | reflexivity]].
  - discriminate.
  - exists (new_session (2 : World good)). eexists.
    split; [reflexivity | split; [vm_compute; reflexivity | reflexivity]].
  - discriminate.
Defined.

(** ** The panel of past narrations *)

Lemma panel_entries_app (new h : list NarrationRecord) :
  panel_entries (new ++ h)
  = concat (imap (narration_entry (length new + length h)) new) ++ panel_entries h.
Proof.
  unfold panel_entries. rewrite imap_app, concat_app, length_app. f_equal. f_equal.
  apply imap_ext. intros i r Hi. simpl. unfold narration_entry.
  replace (length new + length h - (length new + i)) with (length h - i) by lia.
  reflexivity.
Qed.

(** X17. In the panel of past narrations the entry of index [i] of a
    history of [n] records carries the number [n - i]: the head, the latest
    narration, has number [n] and the oldest has number 1. The entries of a
    history are shown unchanged, numbers included, below the entries of the
    records put before it; so no press of the button changes or renumbers
    the entries the panel showed before. An empty history shows no panel. *)
Theorem past_narrations_numbering (svc : Services) :
  past_narrations [] = []
  /\ (forall r h,
         exists rest,
           panel_entries (r :: h)
           = ElMarkdown (str "---") false
               :: ElMarkdown (narration_heading (S (length h)) r) false :: rest)
  /\ (forall h r,
         panel_entries (h ++ [r])
         = concat (imap (narration_entry (S (length h))) h)
             ++ [ElMarkdown (str "---") false;
                 ElMarkdown (narration_heading 1 r) false;
                 ElInfo (str "Rewritten Text: *" ++ rewritten r ++ str "*");
                 ElAudio (audio r) (str "audio/mp3")])
  /\ (forall new h,
         panel_entries (new ++ h)
         = concat (imap (narration_entry (length new + length h)) new)
             ++ panel_entries h)
  /\ (forall ps (s : State svc),
         exists added,
           panel_entries (history (run_presses ps s))
           = added ++ panel_entries (history s)).
Proof.
  split; [reflexivity|].
  split.
  { intros r h. eexists. unfold panel_entries. cbn [imap concat length].
    unfold narration_entry at 1. rewrite Nat.sub_0_r. reflexivity. }
  split.
  { intros h r. rewrite panel_entries_app. simpl length.
    replace (length h + 1) with (S (length h)) by lia. reflexivity. }
  split; [exact panel_entries_app|].
  intros ps s. destruct (run_presses_suffix svc ps s) as [new Hnew].
  rewrite Hnew, panel_entries_app. eexists. reflexivity.
Qed.

(** X18. With the upload method chosen and no file uploaded the text is
    empty: a click then only shows the warning; no adapter is entered and the
    history is the one the run found. *)
Theorem no_file_uploaded_warns (svc : Services) (host : Host) (wd : Widgets)
    (img_data : pybytes) stored tr (w : World svc) :
  read_binary host (str "assets/background.jpg") = Ret img_data ->
  input_method wd = UploadFile ->
  uploaded_file wd = None ->
  generate_clicked wd = true ->
  fst (fst (run_script svc host wd stored tr w)) = Ret tt
  /\ snd (run_script svc host wd stored tr w)
     = {| history := history (session_start stored tr w);
          trace := tr ++ [warning_no_text];
          world := w |}.
Proof.
  intros Hread Hup Hfile Hclick.
  destruct (set_background_style host _ img_data Hread) as (b64 & Hstyle & _).
  unfold run_script, app. rewrite Hstyle. unfold provide_text.
  rewrite Hup, Hfile, Hclick.
  destruct (decide (method_label UploadFile = str "Paste Text")) as [Heq|_];
    [vm_compute in Heq; discriminate|].
  split; reflexivity.
Qed.

Lemma no_file_uploaded_warns_witness :
  fst (fst (run_script good one_image upload_nothing None [] (0 : World good)))
  = Ret tt
  /\ snd (run_script good one_image upload_nothing None [] (0 : World good))
     = Build_State good [] [warning_no_text] 0.
Proof.
  apply (no_file_uploaded_warns good one_image upload_nothing
           [Byte.xff; Byte.xd8; Byte.xff] None [] (0 : World good)); reflexivity.
Defined.

(** X19. A press in which every step succeeds does exactly this, in this
    order: spinner, rewrite adapter entered with the text as typed, pipeline
    loaded, model called with the prompt, spinner, synthesis adapter entered
    with the trimmed generated text (not the original one), gTTS built for
    that text with "en", the locale of the accent and [slow=False], audio
    written, success message. The record holds the text as typed, the
    trimmed generated text and the bytes written, in order. *)
Theorem successful_press_trace (svc : Services) (text tone accent tld : pystr)
    (s : State svc) p w1 d ds w2 g tts w3 chunks w4 :
  strip text <> [] ->
  hf_pipeline svc (world s) = (Ret p, w1) ->
  hf_generate svc p (rewrite_prompt svc text tone) 300 4 true w1 = (Ret (d :: ds), w2) ->
  d !! str "generated_text" = Some g ->
  strip g <> [] ->
  tld_map !! accent = Some tld ->
  gtts_new svc (strip g) (str "en") tld false w2 = (Ret tts, w3) ->
  gtts_stream svc tts w3 = (Ret chunks, w4) ->
  concat chunks <> [] ->
  generate_audiobook svc text tone accent s
  = (Ret tt,
     {| history := {| original := text; rewritten := strip g; tone := tone;
                      accent := accent; audio := concat chunks |} :: history s;
        trace := trace s ++
          [spinner_rewriting;
           EnterRewrite text tone; HfPipeline;
           HfGenerate (rewrite_prompt svc text tone) 300 4 true;
           spinner_synthesizing;
           EnterSynth (strip g) accent;
           GttsNew (strip g) (str "en") tld false; GttsWrite;
           success_generated];
        world := w4 |}).
Proof.
  intros Htext Hload Hgen Hd Hg Htld Hnew Hstream Hau.
  unfold generate_audiobook. rewrite (nonempty_truthy _ Htext). cbn [negb].
  rewrite (bind_ret_eq _ _ _ _ _ (emit_eq svc _ s)).
  rewrite (bind_ret_eq _ _ _ _ _
             (rewrite_generated svc text tone
                {| history := history s;
                   trace := trace s ++ [spinner_rewriting];
                   world := world s |} p w1 d ds w2 g Hload Hgen Hd)).
  destruct (strip g) as [|c rw] eqn:Hrw; [congruence|].
  rewrite (bind_ret_eq _ _ _ _ _ (emit_eq svc _ _)).
  match goal with |- context [bind (convert_text_to_speech svc _ _) _ ?st] =>
    pose proof (convert_known svc (c :: rw) accent tld st Htld) as Hconv
  end.
  cbn [world] in Hconv. rewrite Hnew, Hstream in Hconv.
  rewrite (bind_ret_eq _ _ _ _ _ Hconv).
  destruct (concat chunks) as [|b au] eqn:Hchunks; [congruence|].
  rewrite (bind_ret_eq _ _ _ _ _ (emit_eq svc _ _)).
  unfold history_insert. cbn [history trace world take drop app].
  rewrite <- !app_assoc. reflexivity.
Qed.

Lemma successful_press_trace_witness :
  generate_audiobook good (str "Hello world") (str "Neutral") (str "US English")
    (new_session (0 : World good))
  = (Ret tt,
     Build_State good
       [ {| original := str "Hello world"; rewritten := str "A calm morning.";
            tone := str "Neutral"; accent := str "US English"; audio := mp3 |} ]
       [spinner_rewriting;
        EnterRewrite (str "Hello world") (str "Neutral"); HfPipeline;
        HfGenerate (str "Rewrite the following text in a neutral tone: Hello world")
                   300 4 true;
        spinner_synthesizing;
        EnterSynth (str "A calm morning.") (str "US English");
        GttsNew (str "A calm morning.") (str "en") (str "com") false; GttsWrite;
        success_generated]
       4).
Proof.
  apply (successful_press_trace good (str "Hello world") (str "Neutral")
           (str "US English") (str "com") (new_session (0 : World good))
           tt (1 : World good)
           ({[ str "generated_text" := str "  A calm morning. " ]}) []
           (2 : World good) (str "  A calm morning. ")
           tt (3 : World good) mp3_chunks (4 : World good)).
  - vm_compute. discriminate.
  - reflexivity.
  - reflexivity.
  - vm_compute. reflexivity.
  - vm_compute. discriminate.
  - vm_compute. reflexivity.
  - reflexivity.
  - reflexivity.
  - discriminate.
Defined.

(** X20. A press that stops because the rewritten text is the empty string,
    or because the audio is the empty bytes, tells the user nothing: the run
    shows no warning, no error and no success message, and the history is
    the one before. (The adapters show an error only when they return
    [None].) *)
Theorem empty_results_are_silent (svc : Services) (text tone accent : pystr)
    (s : State svc) :
  strip text <> [] ->
  (forall w1,
      adapter_returns (rewrite_text_with_tone svc text tone) (world s) (Some []) w1 ->
      exists evs s',
        generate_audiobook svc text tone accent s = (Ret tt, s')
        /\ history s' = history s
        /\ trace s' = trace s ++ evs
        /\ Forall (fun ev => is_message ev = false) evs)
  /\ (forall rw w1 w2,
         adapter_returns (rewrite_text_with_tone svc text tone) (world s) (Some rw) w1 ->
         rw <> [] ->
         adapter_returns (convert_text_to_speech svc rw accent) w1 (Some []) w2 ->
         exists evs s',
           generate_audiobook svc text tone accent s = (Ret tt, s')
           /\ history s' = history s
           /\ trace s' = trace s ++ evs
           /\ Forall (fun ev => is_message ev = false) evs).
Proof.
  intros Htext.
  destruct (generate_cases svc text tone accent s)
    as (evs & s' & E & Htr & [(Hblank & _) | (_ & r & revs & w1' & Er & Hrest)]);
    [congruence|].
  destruct (rewrite_events_shape svc text tone _ _ _ _ Er) as (evs0 & -> & Hr).
  split.
  - intros w1 Hrw.
    destruct (adapter_run svc _ _ _ _ (local_rewrite svc text tone) Hrw s eq_refl)
      as (evs1 & Er1 & _).
    rewrite Er in Er1. injection Er1 as -> _ _.
    destruct Hr as [(Hnone & _) | (g & _ & ->)]; [discriminate|].
    destruct Hrest as [(_ & -> & Hh & _) | (rw & a & aevs & w2 & [= <-] & Hne & _)];
      [|congruence].
    exists (spinner_rewriting
              :: [EnterRewrite text tone; HfPipeline;
                  HfGenerate (rewrite_prompt svc text tone) 300 4 true]), s'.
    split; [exact E|]. split; [exact Hh|]. split; [exact Htr|].
    repeat constructor.
  - intros rw w1 w2 Hrw Hrw_ne Hau.
    destruct (adapter_run svc _ _ _ _ (local_rewrite svc text tone) Hrw s eq_refl)
      as (evs1 & Er1 & _).
    rewrite Er in Er1. injection Er1 as -> _ ->.
    destruct Hr as [(Hnone & _) | (g & _ & ->)]; [discriminate|].
    destruct Hrest as [(Hfalse & _) | (rw' & a & aevs & w2' & [= <-] & _ & Ea & _ & Hlast)].
    { destruct rw; [congruence | discriminate]. }
    destruct (adapter_run svc _ _ _ _ (local_convert svc rw accent) Hau
                (new_session w1) eq_refl) as (evs2 & Ea2 & _).
    rewrite Ea in Ea2. injection Ea2 as -> _ _.
    destruct (convert_events_shape svc rw accent _ _ _ _ Ea) as (evs3 & -> & Ha).
    destruct Hlast as [(_ & -> & Hh) | (au & [= <-] & Hne & _)]; [|congruence].
    destruct Ha as [(Hnone & _) | [(tld & e & Hnone & _) | (tld & au & _ & _ & ->)]];
      try discriminate.
    eexists _, s'. split; [exact E|]. split; [exact Hh|]. split; [exact Htr|].
    simpl. repeat constructor.
Qed.

Lemma empty_results_are_silent_witness :
  exists evs s',
    generate_audiobook no_audio (str "Hello world") (str "Neutral") (str "US English")
      (new_session (0 : World no_audio)) = (Ret tt, s')
    /\ history s' = []
    /\ trace s' = [] ++ evs
    /\ Forall (fun ev => is_message ev = false) evs.
Proof.
  destruct (empty_results_are_silent no_audio (str "Hello world") (str "Neutral")
              (str "US English") (new_session (0 : World no_audio))) as [_ H].
  - vm_compute. discriminate.
  - apply (H (str "A calm morning.") (2 : World no_audio) (4 : World no_audio)).
    + exists (new_session (0 : World no_audio)). eexists.
      split; [reflexivity | split; [vm_compute; reflexivity | reflexivity]].
    + discriminate.
    + exists (new_session (2 : World no_audio)). eexists.
      split; [reflexivity | split; [vm_compute; reflexivity | reflexivity]].
Defined.

(** ** A byte order mark *)

Section NonBlank.

Variable svc : Services.

(** A text that is not blank reaches the rewrite adapter as it is. *)
Lemma generate_enters_rewrite (text tone accent : pystr) (s : State svc) :
  strip text <> [] ->
  exists evs s',
    generate_audiobook svc text tone accent s = (Ret tt, s')
    /\ trace s' = trace s ++ spinner_rewriting :: EnterRewrite text tone :: evs.
Proof.
  intros Htext.
  destruct (generate_cases svc text tone accent s)
    as (evs & s' & E & Htr & [(Hblank & _) | (_ & r & revs & w1 & Er & Hrest)]);
    [congruence|].
  destruct (rewrite_events_shape svc text tone _ _ _ _ Er) as (evs0 & -> & _).
  destruct Hrest as [(_ & -> & _) | (rw & a & aevs & w2 & _ & _ & _ & _ & Hlast)].
  - eexists _, s'. split; [exact E | exact Htr].
  - destruct Hlast as [(_ & -> & _) | (au & _ & _ & -> & _)];
      (eexists _, s'; split; [exact E | exact Htr]).
Qed.

End NonBlank.

Lemma strip_keeps_nonspace (c : N) (t : pystr) :
  isspace c = false -> strip (c :: t) <> [].
Proof.
  intros Hc H. apply strip_blank in H. simpl in H. rewrite Hc in H. discriminate.
Qed.

(** The three bytes EF BB BF decode to U+FEFF, which stays in the text. *)
Lemma utf8_decode_bom (rest : pybytes) (t : pystr) :
  utf8_decode rest = Ret t ->
  utf8_decode (Byte.xef :: Byte.xbb :: Byte.xbf :: rest) = Ret (65279%N :: t).
Proof.
  unfold utf8_decode. intros H.
  change (List.map Byte.to_N (Byte.xef :: Byte.xbb :: Byte.xbf :: rest))
    with (239 :: 187 :: 191 :: List.map Byte.to_N rest)%N.
  cbn [utf8_decode_values]. rewrite H. reflexivity.
Qed.

(** X21. The decoding keeps a byte order mark, and [strip] does not take
    U+FEFF for white space: an uploaded file that starts with the UTF-8 mark
    (EF BB BF) is never refused as empty, even when nothing or only white
    space follows. On a click the rewrite adapter is entered with a text that
    starts with U+FEFF. *)
Theorem bom_defeats_validation (svc : Services) (host : Host) (wd : Widgets)
    (img_data rest : pybytes) (t : pystr) stored tr (w : World svc) :
  read_binary host (str "assets/background.jpg") = Ret img_data ->
  input_method wd = UploadFile ->
  uploaded_file wd = Some (Byte.xef :: Byte.xbb :: Byte.xbf :: rest) ->
  utf8_decode rest = Ret t ->
  generate_clicked wd = true ->
  strip (65279%N :: t) <> []
  /\ exists evs,
       trace (snd (run_script svc host wd stored tr w))
       = tr ++ spinner_rewriting
            :: EnterRewrite (65279%N :: t) (tone_label (selected_tone wd)) :: evs.
Proof.
  intros Hread Hup Hfile Hdec Hclick.
  assert (Hne : strip (65279%N :: t) <> []) by (apply strip_keeps_nonspace; reflexivity).
  split; [exact Hne|].
  destruct (set_background_style host _ img_data Hread) as (b64 & Hstyle & _).
  unfold run_script, app. rewrite Hstyle. unfold provide_text.
  rewrite Hup, Hfile, (utf8_decode_bom rest t Hdec), Hclick.
  destruct (decide (method_label UploadFile = str "Paste Text")) as [Heq|_];
    [vm_compute in Heq; discriminate|].
  destruct (generate_enters_rewrite svc (65279%N :: t) (tone_label (selected_tone wd))
              (accent_label (selected_accent wd)) (session_start stored tr w) Hne)
    as (evs & s' & E & Htr).
  rewrite E. exists evs. exact Htr.
Qed.

Lemma bom_defeats_validation_witness :
  strip [65279; 13; 10]%N <> []
  /\ exists evs,
       trace (snd (run_script good one_image upload_bom None [] (0 : World good)))
       = [] ++ spinner_rewriting
            :: EnterRewrite [65279; 13; 10]%N (tone_label Neutral) :: evs.
Proof.
  apply (bom_defeats_validation good one_image upload_bom
           [Byte.xff; Byte.xd8; Byte.xff] [Byte.x0d; Byte.x0a] [13; 10]%N
           None [] (0 : World good)); reflexivity.
Defined.

(** ** The numbers of the panel *)

(** Digits followed by "*" can be read back. *)
Lemma uint_digits_sep (d1 d2 : Decimal.uint) (x y : pystr) :
  uint_digits d1 ++ 42%N :: x = uint_digits d2 ++ 42%N :: y -> d1 = d2.
Proof.
  revert d2. induction d1 as [|d1 IH|d1 IH|d1 IH|d1 IH|d1 IH|d1 IH|d1 IH|d1 IH|d1 IH|d1 IH];
    intros [|d2|d2|d2|d2|d2|d2|d2|d2|d2|d2]; simpl; intros H;
    try discriminate H; try reflexivity;
    injection H as H; f_equal; exact (IH _ H).
Qed.

Lemma narration_heading_number (n m : nat) (r r' : NarrationRecord) :
  narration_heading n r = narration_heading m r' -> n = m.
Proof.
  unfold narration_heading. intros H. apply app_inv_head in H.
  change (str "** (Tone: ") with (42%N :: str "* (Tone: ") in H.
  simpl in H. apply uint_digits_sep in H.
  rewrite <- (Unsigned.of_to n), <- (Unsigned.of_to m). unfold str_of_nat in H.
  congruence.
Qed.

(** X22. No two entries of the panel of past narrations carry the same
    heading, even when their tone and accent are the same: the decimal
    number in the heading tells them apart. *)
Theorem narration_headings_distinct (h : list NarrationRecord) (i j : nat)
    (ri rj : NarrationRecord) :
  h !! i = Some ri ->
  h !! j = Some rj ->
  i <> j ->
  narration_heading (length h - i) ri <> narration_heading (length h - j) rj.
Proof.
  intros Hi Hj Hne Heq.
  apply lookup_lt_Some in Hi. apply lookup_lt_Some in Hj.
  apply narration_heading_number in Heq. lia.
Qed.

Lemma narration_headings_distinct_witness :
  narration_heading (2 - 0)
    {| original := str " Second take "; rewritten := str "A calm morning.";
       tone := str "Neutral"; accent := str "US English"; audio := mp3 |}
  <> narration_heading (2 - 1)
       {| original := str "Hello world"; rewritten := str "A calm morning.";
          tone := str "Neutral"; accent := str "US English"; audio := mp3 |}.
Proof.
  apply (narration_headings_distinct
           [ {| original := str " Second take "; rewritten := str "A calm morning.";
                tone := str "Neutral"; accent := str "US English"; audio := mp3 |};
             {| original := str "Hello world"; rewritten := str "A calm morning.";
                tone := str "Neutral"; accent := str "US English"; audio := mp3 |} ]
           0 1).
  - reflexivity.
  - reflexivity.
  - discriminate.
Defined.

(** X23. The numbers of the panel follow the order of the runs: in a session
    that starts empty, after presses that all succeed, the record of run [k]
    (counted from 0) is in the history and its entry in the panel is headed
    "Narration k+1", with its own tone, accent, rewritten text and audio. *)
Theorem numbering_is_chronological (svc : Services) (ps : list Press)
    (s : State svc) (rs : list NarrationRecord) (k : nat) (r : NarrationRecord) :
  history s = [] ->
  run_records ps s = List.map Some rs ->
  rs !! k = Some r ->
  exists i,
    history (run_presses ps s) !! i = Some r
    /\ narration_entry (length (history (run_presses ps s))) i r
       = [ElMarkdown (str "---") false;
          ElMarkdown (str "**Narration " ++ str_of_nat (S k) ++ str "** (Tone: "
                        ++ tone r ++ str ", Accent: " ++ accent r ++ str ")") false;
          ElInfo (str "Rewritten Text: *" ++ rewritten r ++ str "*");
          ElAudio (audio r) (str "audio/mp3")].
Proof.
  intros Hempty Hrs Hk.
  pose proof (run_presses_records svc ps s rs Hrs) as Hh.
  rewrite Hempty, app_nil_r in Hh.
  pose proof (lookup_lt_Some _ _ _ Hk) as Hlt.
  exists (length rs - 1 - k). rewrite Hh. split.
  - rewrite rev_is_reverse, reverse_lookup by lia.
    rewrite <- Hk. f_equal. lia.
  - unfold narration_entry, narration_heading. rewrite length_rev.
    replace (length rs - (length rs - 1 - k)) with (S k) by lia.
    reflexivity.
Qed.

Lemma numbering_is_chronological_witness :
  exists i,
    history (run_presses [hello; again] (new_session (0 : World good))) !! i
    = Some {| original := str " Second take ";
              rewritten := str "A calm morning.";
              tone := str "Suspenseful";
              accent := str "UK English";
              audio := mp3 |}
    /\ narration_entry
         (length (history (run_presses [hello; again] (new_session (0 : World good)))))
         i
         {| original := str " Second take ";
            rewritten := str "A calm morning.";
            tone := str "Suspenseful";
            accent := str "UK English";
            audio := mp3 |}
       = [ElMarkdown (str "---") false;
          ElMarkdown (str "**Narration " ++ str_of_nat 2 ++ str "** (Tone: "
                        ++ str "Suspenseful" ++ str ", Accent: "
                        ++ str "UK English" ++ str ")") false;
          ElInfo (str "Rewritten Text: *" ++ str "A calm morning." ++ str "*");
          ElAudio mp3 (str "audio/mp3")].
Proof.
  apply (numbering_is_chronological good [hello; again]
           (new_session (0 : World good))
           [ {| original := str "Hello world";
                rewritten := str "A calm morning.";
                tone := str "Neutral";
                accent := str "US English";
                audio := mp3 |};
             {| original := str " Second take ";
                rewritten := str "A calm morning.";
                tone := str "Suspenseful";
                accent := str "UK English";
                audio := mp3 |} ]
           1).
  - reflexivity.
  - vm_compute. reflexivity.
  - reflexivity.
Defined.
